(** * code2md: combining the files of a directory into one Markdown document

    A shallow embedding of [code2md.py] and the properties of its
    specification.  Python strings are modelled by [string]: a sequence of
    code points below 256 (the Latin-1 range of Unicode), on which
    [str.lower], [str.strip] and [str.isspace] are written out as Python
    defines them.  Loops become structural recursion over the list they
    iterate on; the calls that reach outside the program (directory
    listing, reading files, the clock, the terminal, the log) go through an
    explicit [world] and an explicit program [state]. *)

From Stdlib Require Import String Ascii List Bool Arith Lia DecimalString.
Import ListNotations.
Open Scope string_scope.
Open Scope list_scope.
Open Scope nat_scope.

Set Implicit Arguments.

(** ** Python's [str] methods used by the program *)

Module PyStr.

(** Concatenation of strings, written as in an f-string. *)
Infix "+++" := String.append (right associativity, at level 60).

Definition code (c : ascii) : nat := nat_of_ascii c.

(** [str.isspace] on one character: the code points below 256 that Unicode
    classes as whitespace. *)
Definition is_space (c : ascii) : bool :=
  let n := code c in
  ((9 <=? n) && (n <=? 13)) || ((28 <=? n) && (n <=? 32))
  || (n =? 133) || (n =? 160).

(** [str.lower] on one character: A-Z, and the Latin-1 capitals U+00C0 to
    U+00DE except the multiplication sign U+00D7, move up by 32. *)
Definition lower_char (c : ascii) : ascii :=
  let n := code c in
  if ((65 <=? n) && (n <=? 90))
     || ((192 <=? n) && (n <=? 222) && negb (n =? 215))
  then ascii_of_nat (n + 32) else c.

Fixpoint lower (s : string) : string :=
  match s with
  | EmptyString => EmptyString
  | String c s' => String (lower_char c) (lower s')
  end.

Fixpoint lstrip (s : string) : string :=
  match s with
  | EmptyString => EmptyString
  | String c s' => if is_space c then lstrip s' else s
  end.

(** [rstrip] keeps a character when it is not a space or when something is
    kept after it. *)
Fixpoint rstrip (s : string) : string :=
  match s with
  | EmptyString => EmptyString
  | String c s' =>
      match rstrip s' with
      | EmptyString => if is_space c then EmptyString else String c EmptyString
      | r => String c r
      end
  end.

Definition strip (s : string) : string := rstrip (lstrip s).

(** [s.startswith(p)]. *)
Fixpoint startswith (s p : string) {struct p} : bool :=
  match p with
  | EmptyString => true
  | String c p' =>
      match s with
      | EmptyString => false
      | String d s' => Ascii.eqb d c && startswith s' p'
      end
  end.

(** [s.split(sep)] for a separator of one character: the pieces between
    the occurrences of [sep]; never the empty list. *)
Fixpoint split (sep : ascii) (s : string) : list string :=
  match s with
  | EmptyString => [EmptyString]
  | String c s' =>
      if Ascii.eqb c sep then EmptyString :: split sep s'
      else match split sep s' with
           | [] => [String c EmptyString]
           | p :: ps => String c p :: ps
           end
  end.

(** [s.replace(old, new)] for [old] of one character. *)
Fixpoint replace (old : ascii) (new : string) (s : string) : string :=
  match s with
  | EmptyString => EmptyString
  | String c s' =>
      if Ascii.eqb c old then new +++ replace old new s'
      else String c (replace old new s')
  end.

(** The last character of a string, if any. *)
Fixpoint last_char (s : string) : option ascii :=
  match s with
  | EmptyString => None
  | String c EmptyString => Some c
  | String _ s' => last_char s'
  end.

(** [sep.join(parts)]. *)
Fixpoint join (sep : string) (parts : list string) : string :=
  match parts with
  | [] => EmptyString
  | [p] => p
  | p :: ps => p +++ sep +++ join sep ps
  end.

(** The truth value of a string: true unless it is empty. *)
Definition nonempty_str (s : string) : bool := negb (String.eqb s "").

(** [x in s] for a character [x]. *)
Fixpoint contains (x : ascii) (s : string) : bool :=
  match s with
  | EmptyString => false
  | String c s' => Ascii.eqb c x || contains x s'
  end.

(** The newline character, written [\n] in the source. *)
Definition nl : string := String "010"%char EmptyString.

(** [s.endswith(c)] for a character [c]. *)
Definition endswith_char (s : string) (c : ascii) : bool :=
  match last_char s with
  | Some d => Ascii.eqb d c
  | None => false
  end.

(** [str(n)] for a non-negative integer. *)
Definition str_of_nat (n : nat) : string :=
  NilZero.string_of_uint (Nat.to_uint n).

(** [xs[-1]]: the last element; [IndexError] on the empty list. *)
Definition last_item (xs : list string) : option string :=
  match xs with
  | [] => None
  | x :: xs' => Some (last xs' x)
  end.

End PyStr.
Import PyStr.

(** ** Language identification (code2md.py, lines 145-174) *)

Definition language_map : list (string * string) :=
  [ ("py", "python"); ("js", "javascript"); ("html", "html"); ("css", "css");
    ("java", "java"); ("c", "c"); ("cpp", "cpp"); ("md", "markdown");
    ("txt", "text"); ("json", "json"); ("xml", "xml"); ("sql", "sql");
    ("sh", "bash"); ("yaml", "yaml"); ("yml", "yaml") ].

(** [d.get(key, default)] on a dictionary given by its items. *)
Fixpoint dict_get (d : list (string * string)) (key default : string) : string :=
  match d with
  | [] => default
  | (k, v) :: d' => if String.eqb k key then v else dict_get d' key default
  end.

(** The extension is the last piece of [filename.split('.')], lower-cased.
    [split] never returns the empty list, so the index [-1] is defined. *)
Definition extension_of (filename : string) : string :=
  match last_item (split "." filename) with
  | Some e => lower e
  | None => EmptyString
  end.

Definition get_language_identifier (filename : string) : string :=
  let extension := extension_of filename in
  dict_get language_map extension "".

(** ** The functions of [os.path] (posixpath) the program calls *)

Module posixpath.

Definition sep : ascii := "/"%char.

Definition isabs (p : string) : bool := startswith p "/".

(** [os.path.join(a, b)]. *)
Definition join (a b : string) : string :=
  if startswith b "/" then b
  else if String.eqb a "" || endswith_char a sep then a +++ b
  else a +++ "/" +++ b.

(** [os.path.basename(p)]: what follows the last slash. *)
Fixpoint basename (p : string) : string :=
  match p with
  | EmptyString => EmptyString
  | String c p' =>
      if contains sep p' then basename p'
      else if Ascii.eqb c sep then p' else p
  end.

(** The number of slashes [normpath] keeps in front: two when the path
    starts with exactly two, one when it starts with one or with three or
    more. *)
Definition initial_slashes (path : string) : nat :=
  if startswith path "/" then
    if startswith path "//" && negb (startswith path "///") then 2 else 1
  else 0.

(** One round of the loop of [normpath] over the components. *)
Definition normpath_step (slashes : nat) (new_comps : list string)
    (comp : string) : list string :=
  if String.eqb comp "" || String.eqb comp "." then new_comps
  else if negb (String.eqb comp "..")
          || ((slashes =? 0) && (length new_comps =? 0))
          || (negb (length new_comps =? 0)
              && String.eqb (last new_comps "") "..")
       then new_comps ++ [comp]
       else removelast new_comps.

Fixpoint repeat_string (n : nat) (s : string) : string :=
  match n with
  | 0 => EmptyString
  | S n' => s +++ repeat_string n' s
  end.

Definition normpath (path : string) : string :=
  if String.eqb path "" then "."
  else
    let slashes := initial_slashes path in
    let comps := fold_left (normpath_step slashes) (split sep path) [] in
    let path := repeat_string slashes "/" +++ PyStr.join "/" comps in
    if String.eqb path "" then "." else path.

Definition abspath (cwd path : string) : string :=
  normpath (if isabs path then path else join cwd path).

Fixpoint commonprefix_length (xs ys : list string) : nat :=
  match xs, ys with
  | x :: xs', y :: ys' =>
      if String.eqb x y then S (commonprefix_length xs' ys') else 0
  | _, _ => 0
  end.

(** [os.path.join] applied to all the parts of a non-empty list. *)
Definition join_all (parts : list string) : string :=
  match parts with
  | [] => EmptyString
  | p :: ps => fold_left join ps p
  end.

(** [os.path.relpath(path, start)]; [None] stands for the [ValueError]
    raised on an empty [path]. *)
Definition relpath (cwd path start : string) : option string :=
  if String.eqb path "" then None
  else
    let start_list := filter nonempty_str (split sep (abspath cwd start)) in
    let path_list := filter nonempty_str (split sep (abspath cwd path)) in
    let i := commonprefix_length start_list path_list in
    let rel_list := repeat ".." (length start_list - i) ++ skipn i path_list in
    match rel_list with
    | [] => Some "."
    | _ => Some (join_all rel_list)
    end.

End posixpath.

(** A matcher for the patterns made of [*], [?] and literal characters, on
    which it agrees with [fnmatch.fnmatchcase]; it is the instance of the
    pattern matcher the worked examples run on. *)
Fixpoint wildcard (pat name : string) {struct pat} : bool :=
  match pat with
  | EmptyString => String.eqb name ""
  | String c pat' =>
      if Ascii.eqb c "*" then
        (fix any_suffix (n : string) : bool :=
           wildcard pat' n
           || match n with
              | EmptyString => false
              | String _ n' => any_suffix n'
              end) name
      else
        match name with
        | EmptyString => false
        | String d name' =>
            (Ascii.eqb c "?" || Ascii.eqb c d) && wildcard pat' name'
        end
  end.

Definition wildcard_fnmatch (name pat : string) : bool := wildcard pat name.

(** ** The world outside the program and the program state *)

(** A directory tree, in the order the directory listing gives its
    entries: regular files (or links to one), sub-directories, and the
    entries that are neither: a dangling symbolic link, a FIFO, a socket, a
    device.  A link to a directory, which [os.walk] lists and does not
    enter, is a [Dir] without children. *)
#[warnings="-register-all"]
Inductive node : Type :=
| File (name : string)
| Dir (name : string) (children : list node)
| Special (name : string).

Definition node_name (n : node) : string :=
  match n with File name => name | Dir name _ => name | Special name => name end.

(** [os.path.isfile]: regular files only. *)
Definition is_file (n : node) : bool :=
  match n with File _ => true | _ => false end.

(** What [os.walk] takes for a directory; every other entry goes to its
    list of files. *)
Definition is_dir (n : node) : bool :=
  match n with Dir _ _ => true | _ => false end.

(** What [open(path, 'r')] followed by [read()] gives: the text (decoded,
    line ends already translated to [\n]), an [IOError], or an error of
    another class such as [UnicodeDecodeError]. *)
Inductive read_result : Type :=
| ReadOk (text : string)
| ReadIOError (e : string)
| ReadDecodeError (e : string).

Record world : Type := {
  getcwd : string;                       (* os.getcwd() *)
  script_file : string;                  (* __file__ *)
  now : string;                          (* datetime.now().strftime("%Y-%m-%d %H:%M:%S") *)
  scandir : string -> list node + string; (* the tree below a directory, or the OSError of listing it *)
  path_exists : string -> bool;          (* os.path.exists *)
  open_read : string -> read_result;
  open_write : string -> option string   (* the OSError of open(path, 'w'), if any *)
}.

(** The exceptions a run can raise, all of class [Exception], which the
    two [except Exception] handlers catch; [KeyboardInterrupt] and
    [SystemExit], which they let through, are outside the model. *)
Inductive exn : Type :=
| FileProcessingError (msg : string)
| OSError (msg : string)
| UnicodeDecodeError (msg : string)
| ValueError (msg : string)
| EOFError.

(** [str(e)]. *)
Definition exn_str (e : exn) : string :=
  match e with
  | FileProcessingError msg | OSError msg | UnicodeDecodeError msg
  | ValueError msg => msg
  | EOFError => "EOF when reading a line"
  end.

Inductive outcome (A : Type) : Type :=
| Return (a : A)
| Raise (e : exn).
Arguments Raise {A} e.

Inductive level : Type := INFO | ERROR.

(** The state a run threads: the lines still to be read from the terminal,
    what was printed, the log records, and the output file (absent until
    it is opened, then the strings written to it, in order). *)
Record state : Type := {
  stdin : list string;
  stdout : list string;
  log : list (level * string);
  outfile : option (list string)
}.

(** The monad of the program: state and exceptions. *)
Definition M (A : Type) : Type := state -> outcome A * state.

Definition ret {A} (a : A) : M A := fun st => (Return a, st).

Definition raise {A} (e : exn) : M A := fun st => (Raise e, st).

Definition bind {A B} (m : M A) (k : A -> M B) : M B :=
  fun st =>
    match m st with
    | (Return a, st') => k a st'
    | (Raise e, st') => (Raise e, st')
    end.

(** [try: m except ...: handler], the handler choosing what it catches. *)
Definition try_except {A} (m : M A) (handler : exn -> option (M A)) : M A :=
  fun st =>
    match m st with
    | (Return a, st') => (Return a, st')
    | (Raise e, st') =>
        match handler e with
        | Some h => h st'
        | None => (Raise e, st')
        end
    end.

Definition lift {A} (o : outcome A) : M A := fun st => (o, st).

Notation "x <- m ;; k" := (bind m (fun x => k))
  (at level 61, m at next level, right associativity).
Notation "m ;;; k" := (bind m (fun _ => k))
  (at level 61, right associativity).

Definition logging (lv : level) (msg : string) : M unit :=
  fun st => (Return tt,
             {| stdin := stdin st; stdout := stdout st;
                log := log st ++ [(lv, msg)]; outfile := outfile st |}).

(** [open(output_file, 'w')]: the file is created or truncated. *)
Definition open_outfile (w : world) (output_file : string) : M unit :=
  fun st =>
    match open_write w output_file with
    | Some e => (Raise (OSError e), st)
    | None => (Return tt,
               {| stdin := stdin st; stdout := stdout st; log := log st;
                  outfile := Some [] |})
    end.

(** [outfile.write(s)]. *)
Definition write (s : string) : M unit :=
  fun st =>
    (Return tt,
     {| stdin := stdin st; stdout := stdout st; log := log st;
        outfile := match outfile st with
                   | Some ws => Some (ws ++ [s])
                   | None => None
                   end |}).

(** ** The program *)

(** *** Reading a file (lines 16-23) *)

Definition read_file_content (w : world) (file_path : string) : M string :=
  match open_read w file_path with
  | ReadOk text => ret text
  | ReadIOError e =>
      logging ERROR ("Error reading file " +++ file_path +++ ": " +++ e) ;;;
      raise (FileProcessingError ("Unable to read file: " +++ file_path))
  | ReadDecodeError e => raise (UnicodeDecodeError e)
  end.

(** *** The ignore file (lines 26-44) *)

(** Iterating over a text file: each line ends after its [\n]; the last
    one may have none. *)
Fixpoint readlines (text : string) : list string :=
  match text with
  | EmptyString => []
  | String c text' =>
      if Ascii.eqb c "010" then nl :: readlines text'
      else match readlines text' with
           | [] => [String c EmptyString]
           | line :: lines => String c line :: lines
           end
  end.

(** The body of the loop of [parse_gitignore]. *)
Definition gitignore_step (patterns : list string) (line : string)
    : list string :=
  let line := strip line in
  if nonempty_str line && negb (startswith line "#")
  then patterns ++ [line] else patterns.

Definition parse_gitignore (w : world) (directory : string)
    : outcome (list string) :=
  let gitignore_path := posixpath.join directory ".gitignore" in
  if path_exists w gitignore_path then
    match open_read w gitignore_path with
    | ReadOk text => Return (fold_left gitignore_step (readlines text) [])
    | ReadIOError e => Raise (OSError e)
    | ReadDecodeError e => Raise (UnicodeDecodeError e)
    end
  else Return [].

(** *** Collecting the files (lines 47-87) *)

(** [os.walk(top)] on the tree below [top]: the directory itself, then its
    sub-directories in listing order, each with the names of its
    sub-directories and of its files. *)
Fixpoint walk_node (top : string) (n : node)
    : list (string * list string * list string) :=
  match n with
  | File _ | Special _ => []
  | Dir name children =>
      let root := posixpath.join top name in
      (root,
       map node_name (filter is_dir children),
       map node_name (filter (fun c => negb (is_dir c)) children))
      :: flat_map (walk_node root) children
  end.

Definition walk (w : world) (top : string)
    : list (string * list string * list string) :=
  match scandir w top with
  | inl entries =>
      (top,
       map node_name (filter is_dir entries),
       map node_name (filter (fun c => negb (is_dir c)) entries))
      :: flat_map (walk_node top) entries
  | inr _ => []
  end.

(** A generator that filters: the paths that pass the test, or the first
    exception the test raises. *)
Fixpoint filter_paths (test : string -> outcome bool) (paths : list string)
    : outcome (list string) :=
  match paths with
  | [] => Return []
  | p :: ps =>
      match test p with
      | Raise e => Raise e
      | Return keep =>
          match filter_paths test ps with
          | Raise e => Raise e
          | Return kept => Return (if keep then p :: kept else kept)
          end
      end
  end.

Section Collector.

(** [fnmatch.fnmatch(name, pattern)] of the standard library. *)
Variable fnmatch : string -> string -> bool.

Definition is_ignored (w : world) (directory : string)
    (ignore_patterns : option (list string)) (file_path : string)
    : outcome bool :=
  match ignore_patterns with
  | None | Some [] => Return false
  | Some patterns =>
      match posixpath.relpath (getcwd w) file_path directory with
      | None => Raise (ValueError "no path specified")
      | Some rel_path =>
          Return (existsb (fun pattern =>
                             fnmatch rel_path pattern
                             || fnmatch (posixpath.basename rel_path) pattern)
                          patterns)
      end
  end.

(** The two nested loops of the recursive branch: the paths they test, in
    the order of the walk. *)
Definition files_of_walk (triples : list (string * list string * list string))
    : list string :=
  flat_map (fun '(root, _, files) => map (posixpath.join root) files) triples.

Definition walked_files (w : world) (directory : string) : list string :=
  files_of_walk (walk w directory).

Definition collect_files (w : world) (directory : string) (recursive : bool)
    (ignore_patterns : option (list string)) : outcome (list string) :=
  let keep file_path :=
    match is_ignored w directory ignore_patterns file_path with
    | Return b => Return (negb b)
    | Raise e => Raise e
    end in
  if recursive then filter_paths keep (walked_files w directory)
  else
    match scandir w directory with
    | inr e => Raise (OSError e)
    | inl entries =>
        filter_paths keep
          (map (fun n => posixpath.join directory (node_name n))
               (filter is_file entries))
    end.

End Collector.

(** *** Asking the user (lines 106-123) *)

Definition str_in (x : string) (xs : list string) : bool :=
  existsb (String.eqb x) xs.

Definition confirmation_prompt (filename : string) : string :=
  "Include '" +++ filename +++ "' in the output? (y/n): ".

Definition invalid_input_message : string :=
  "Invalid input. Please enter 'y' for yes or 'n' for no." +++ nl.

(** The [while True] loop, by recursion on the lines the terminal still
    holds: each round prints the prompt and reads one line; when no line is
    left, [input] raises [EOFError]. *)
Fixpoint confirmation_loop (filename : string) (lines printed : list string)
    : outcome bool * list string * list string :=
  let printed := printed ++ [confirmation_prompt filename] in
  match lines with
  | [] => (Raise EOFError, [], printed)
  | line :: lines' =>
      let response := strip (lower line) in
      if str_in response ["y"; "yes"] then (Return true, lines', printed)
      else if str_in response ["n"; "no"] then (Return false, lines', printed)
      else confirmation_loop filename lines' (printed ++ [invalid_input_message])
  end.

Definition get_user_confirmation (filename : string) : M bool :=
  fun st =>
    let '(r, lines, printed) :=
      confirmation_loop filename (stdin st) (stdout st) in
    (r, {| stdin := lines; stdout := printed; log := log st;
           outfile := outfile st |}).

(** *** The table of contents (lines 126-142) *)

Definition toc_step (toc file : string) : string :=
  let link := replace "." "" (replace " " "-" file) in
  toc +++ "- [" +++ file +++ "](#" +++ link +++ ")" +++ nl.

Definition generate_toc (files : list string) : string :=
  let toc := "# Table of Contents" +++ nl +++ nl in
  let toc := fold_left toc_step files toc in
  toc +++ nl.

(** *** Metadata (lines 177-180) *)

Definition generate_metadata (w : world) : string :=
  "Generated on: " +++ now w +++ nl.

(** *** The main function (lines 183-233) *)

(** The selection loop (lines 203-206); [include_all or ...] does not ask
    when [include_all] holds. *)
Fixpoint select_files (include_all : bool) (files files_to_include : list string)
    : M (list string) :=
  match files with
  | [] => ret files_to_include
  | filename :: files' =>
      accept <- (if include_all then ret true
                 else get_user_confirmation filename) ;;
      select_files include_all files'
        (if accept then files_to_include ++ [filename] else files_to_include)
  end.

(** The body of the loop over the selected files (lines 220-228). *)
Definition write_section (w : world) (filename : string) : M unit :=
  try_except
    (content <- read_file_content w filename ;;
     let lang_identifier := get_language_identifier filename in
     write ("### " +++ filename +++ nl) ;;;
     write ("```" +++ lang_identifier +++ nl) ;;;
     write content ;;;
     write (nl +++ "```" +++ nl +++ nl))
    (fun e =>
       match e with
       | FileProcessingError _ =>
           Some (logging ERROR
                   ("Skipping file " +++ filename +++ ": " +++ exn_str e))
       | _ => None
       end).

Fixpoint write_sections (w : world) (files_to_include : list string) : M unit :=
  match files_to_include with
  | [] => ret tt
  | filename :: rest => write_section w filename ;;; write_sections w rest
  end.

(** The [with open(output_file, 'w')] block (lines 208-228). *)
Definition write_document (w : world) (output_file : string)
    (files_to_include : list string) : M unit :=
  open_outfile w output_file ;;;
  write ("# File Combination Metadata" +++ nl) ;;;
  write ("```" +++ nl) ;;;
  write (generate_metadata w) ;;;
  write ("```" +++ nl +++ nl) ;;;
  write (generate_toc files_to_include) ;;;
  write_sections w files_to_include.

Section Main.

Variable fnmatch : string -> string -> bool.

(** The filter of line 201. *)
Definition not_self (w : world) (output_file f : string) : bool :=
  let script_name := posixpath.basename (script_file w) in
  negb (String.eqb (posixpath.basename f) script_name)
  && negb (String.eqb (posixpath.abspath (getcwd w) f)
                      (posixpath.abspath (getcwd w) output_file)).

(** Lines 198-201: the candidate list handed to the selection. *)
Definition candidate_files (w : world) (output_file directory : string)
    (recursive ignore_gitignore : bool) : outcome (list string) :=
  match (if ignore_gitignore then Return None
         else match parse_gitignore w directory with
              | Return patterns => Return (Some patterns)
              | Raise e => Raise e
              end) with
  | Raise e => Raise e
  | Return ignore_patterns =>
      match collect_files fnmatch w directory recursive ignore_patterns with
      | Raise e => Raise e
      | Return files => Return (filter (not_self w output_file) files)
      end
  end.

Definition summary (combined considered : nat) (output_file : string) : string :=
  "Successfully combined " +++ str_of_nat combined +++ " out of "
  +++ str_of_nat considered +++ " files into " +++ output_file.

Definition combine_files_to_markdown (w : world) (output_file : string)
    (include_all : bool) (directory : string)
    (recursive ignore_gitignore : bool) : M unit :=
  try_except
    (files <- lift (candidate_files w output_file directory recursive
                      ignore_gitignore) ;;
     files_to_include <- select_files include_all files [] ;;
     write_document w output_file files_to_include ;;;
     logging INFO (summary (length files_to_include) (length files) output_file))
    (fun e =>
       Some (logging ERROR
               ("An error occurred while combining files: " +++ exn_str e) ;;;
             raise e)).

End Main.

(** ** The wording of the specification, for comparison with the code *)

(** The anchor as the specification words it: the filename with its spaces
    and periods stripped. *)
Fixpoint anchor_stripped (file : string) : string :=
  match file with
  | EmptyString => EmptyString
  | String c file' =>
      if Ascii.eqb c " " || Ascii.eqb c "." then anchor_stripped file'
      else String c (anchor_stripped file')
  end.

(** The anchor the code builds, character by character: a space becomes a
    hyphen, a period is dropped. *)
Fixpoint anchor (file : string) : string :=
  match file with
  | EmptyString => EmptyString
  | String c file' =>
      if Ascii.eqb c " " then String "-" (anchor file')
      else if Ascii.eqb c "." then anchor file'
      else String c (anchor file')
  end.

(** ** Accounts of a run, in which the properties are stated *)

(** All the strings of a list, one after the other. *)
Definition concat_all (parts : list string) : string :=
  fold_right String.append "" parts.

(** One link line of the table of contents. *)
Definition toc_entry (link : string -> string) (file : string) : string :=
  "- [" +++ file +++ "](#" +++ link file +++ ")" +++ nl.

(** The table of contents with one link line per file, in list order. *)
Definition toc_of (link : string -> string) (files : list string) : string :=
  "# Table of Contents" +++ nl +++ nl
  +++ concat_all (map (toc_entry link) files) +++ nl.

(** The strings one section of the document is written as. *)
Definition section_strings (filename content : string) : list string :=
  [ "### " +++ filename +++ nl;
    "```" +++ get_language_identifier filename +++ nl;
    content;
    nl +++ "```" +++ nl +++ nl ].

(** The files whose section reaches the document: those that can be read,
    up to the first one whose reading fails outside [IOError]. *)
Fixpoint combined_files (w : world) (files_to_include : list string)
    : list string :=
  match files_to_include with
  | [] => []
  | f :: rest =>
      match open_read w f with
      | ReadOk _ => f :: combined_files w rest
      | ReadIOError _ => combined_files w rest
      | ReadDecodeError _ => []
      end
  end.

(** The section of a file in the document; nothing when it cannot be
    read. *)
Definition section_of (w : world) (f : string) : list string :=
  match open_read w f with
  | ReadOk text => section_strings f text
  | _ => []
  end.

(** The log records of the loop over the selected files. *)
Fixpoint sections_log (w : world) (files_to_include : list string)
    : list (level * string) :=
  match files_to_include with
  | [] => []
  | f :: rest =>
      match open_read w f with
      | ReadOk _ => sections_log w rest
      | ReadIOError e =>
          (ERROR, "Error reading file " +++ f +++ ": " +++ e)
          :: (ERROR, "Skipping file " +++ f +++ ": "
                     +++ "Unable to read file: " +++ f)
          :: sections_log w rest
      | ReadDecodeError _ => []
      end
  end.

(** How the loop over the selected files ends. *)
Fixpoint sections_outcome (w : world) (files_to_include : list string)
    : outcome unit :=
  match files_to_include with
  | [] => Return tt
  | f :: rest =>
      match open_read w f with
      | ReadOk _ | ReadIOError _ => sections_outcome w rest
      | ReadDecodeError e => Raise (UnicodeDecodeError e)
      end
  end.

(** The four writes of the metadata block. *)
Definition metadata_writes (timestamp : string) : list string :=
  [ "# File Combination Metadata" +++ nl;
    "```" +++ nl;
    "Generated on: " +++ timestamp +++ nl;
    "```" +++ nl +++ nl ].

(** The same world at another time of the clock. *)
Definition with_now (w : world) (timestamp : string) : world :=
  {| getcwd := getcwd w; script_file := script_file w; now := timestamp;
     scandir := scandir w; path_exists := path_exists w;
     open_read := open_read w; open_write := open_write w |}.

(** A line of the ignore file that is neither blank nor a comment. *)
Definition is_pattern_line (line : string) : bool :=
  nonempty_str (strip line) && negb (startswith (strip line) "#").

(** What an answer at the prompt means, if it is a valid one. *)
Definition answer_of (line : string) : option bool :=
  let response := strip (lower line) in
  if str_in response ["y"; "yes"] then Some true
  else if str_in response ["n"; "no"] then Some false
  else None.

(** What the rejection of some invalid answers prints: for each of them
    the prompt it answered and the message. *)
Definition rejected (filename : string) (invalid : list string) : list string :=
  flat_map (fun _ => [confirmation_prompt filename; invalid_input_message])
           invalid.

(** The candidates before the patterns are applied. *)
Definition listed_files (w : world) (directory : string) (recursive : bool)
    : outcome (list string) :=
  if recursive then Return (walked_files w directory)
  else
    match scandir w directory with
    | inr e => Raise (OSError e)
    | inl entries =>
        Return (map (fun n => posixpath.join directory (node_name n))
                    (filter is_file entries))
    end.

(** A file's own relative path or its basename matches some pattern. *)
Definition matches_some (fnmatch : string -> string -> bool) (w : world)
    (directory : string) (patterns : list string) (file_path : string) : bool :=
  match posixpath.relpath (getcwd w) file_path directory with
  | None => false
  | Some rel_path =>
      existsb (fun pattern =>
                 fnmatch rel_path pattern
                 || fnmatch (posixpath.basename rel_path) pattern)
              patterns
  end.

Definition excluded (fnmatch : string -> string -> bool) (w : world)
    (directory : string) (ignore_patterns : option (list string))
    (file_path : string) : bool :=
  match ignore_patterns with
  | None => false
  | Some patterns => matches_some fnmatch w directory patterns file_path
  end.

(** The same as a proposition: some pattern matches the file's path
    relative to the scan root or the basename of that path. *)
Definition own_path_matches (fnmatch : string -> string -> bool) (w : world)
    (directory : string) (ignore_patterns : option (list string))
    (file_path : string) : Prop :=
  exists patterns pattern rel_path,
    ignore_patterns = Some patterns
    /\ In pattern patterns
    /\ posixpath.relpath (getcwd w) file_path directory = Some rel_path
    /\ (fnmatch rel_path pattern = true
        \/ fnmatch (posixpath.basename rel_path) pattern = true).

(** A name a directory entry can have: not empty, without slash, and
    neither [.] nor [..]. *)
Definition plain_name (name : string) : bool :=
  nonempty_str name && negb (contains posixpath.sep name)
  && negb (String.eqb name ".") && negb (String.eqb name "..").

Fixpoint plain_tree (n : node) : bool :=
  match n with
  | File name | Special name => plain_name name
  | Dir name children => plain_name name && forallb plain_tree children
  end.

(** The components of a path: the non-empty pieces between its slashes. *)
Definition components (p : string) : list string :=
  filter nonempty_str (split posixpath.sep p).

(** A component the loop of [normpath] keeps: not empty, without slash. *)
Definition kept_component (x : string) : Prop :=
  nonempty_str x = true /\ contains posixpath.sep x = false.

(** The path [abspath] normalises. *)
Definition anchored (cwd path : string) : string :=
  if posixpath.isabs path then path else posixpath.join cwd path.

(** A pattern that holds neither [*] nor [?]. *)
Definition literal_pattern (pat : string) : bool :=
  negb (contains "*" pat) && negb (contains "?" pat).

(** [located entries dirs name]: the tree [entries] holds the file [name]
    below the chain of sub-directories [dirs]. *)
Inductive located : list node -> list string -> string -> Prop :=
| located_here : forall entries name,
    In (File name) entries -> located entries [] name
| located_below : forall entries d sub dirs name,
    In (Dir d sub) entries ->
    located sub dirs name ->
    located entries (d :: dirs) name.

(** The path the walk from [top] builds for such a file. *)
Definition path_of (top : string) (dirs : list string) (name : string)
    : string :=
  posixpath.join (fold_left posixpath.join dirs top) name.

(** [file_under top entries p]: [p] is the path at which a file of the tree
    [entries], at any depth, is reached from the directory [top]. *)
Inductive file_under : string -> list node -> string -> Prop :=
| file_here : forall top entries name,
    In (File name) entries ->
    file_under top entries (posixpath.join top name)
| file_below : forall top entries d sub p,
    In (Dir d sub) entries ->
    file_under (posixpath.join top d) sub p ->
    file_under top entries p.

(** ** A worked directory: the fixture of the unit tests *)

Definition test_dir : string := "/tmp/t".

Definition test_world : world :=
  {| getcwd := "/home/u";
     script_file := "/opt/code2md/code2md.py";
     now := "2024-01-01 00:00:00";
     scandir := fun d =>
       if String.eqb d test_dir
       then inl [File "test1.py"; File "test2.js"; File ".gitignore";
                 File "ignored.log"]
       else inr "No such file or directory";
     path_exists := fun p => String.eqb p "/tmp/t/.gitignore";
     open_read := fun p =>
       if String.eqb p "/tmp/t/test1.py" then ReadOk "print('Hello')"
       else if String.eqb p "/tmp/t/test2.js" then ReadOk "console.log('World')"
       else if String.eqb p "/tmp/t/.gitignore" then ReadOk "*.log"
       else if String.eqb p "/tmp/t/ignored.log"
         then ReadOk "This should be ignored"
       else ReadIOError "No such file or directory";
     open_write := fun _ => None |}.

Definition initial_state (lines : list string) : state :=
  {| stdin := lines; stdout := []; log := []; outfile := None |}.

(** A directory with one readable and one unreadable file. *)
Definition locked_world : world :=
  {| getcwd := "/data";
     script_file := "/opt/code2md/code2md.py";
     now := "2024-01-01 00:00:00";
     scandir := fun d =>
       if String.eqb d "." then inl [File "a.py"; File "b.py"]
       else inr "No such file or directory";
     path_exists := fun _ => false;
     open_read := fun p =>
       if String.eqb p "./a.py" then ReadOk "x = 1"
       else ReadIOError "Permission denied";
     open_write := fun _ => None |}.

(** A directory that holds the script and the output file of an earlier
    run, and no ignore file. *)
Definition self_world : world :=
  {| getcwd := "/proj";
     script_file := "/proj/code2md.py";
     now := "2024-01-01 00:00:00";
     scandir := fun d =>
       if String.eqb d "."
       then inl [File "code2md.py"; File "combined_files.md"; File "main.py"]
       else inr "No such file or directory";
     path_exists := fun _ => false;
     open_read := fun _ => ReadOk "";
     open_write := fun _ => None |}.

(** A tree with a sub-directory [build]. *)
Definition build_tree : list node :=
  [File "a.py"; Dir "build" [File "x.py"; Dir "deep" [File "y.py"]]].

Definition build_world : world :=
  {| getcwd := "/proj";
     script_file := "/opt/code2md/code2md.py";
     now := "2024-01-01 00:00:00";
     scandir := fun d =>
       if String.eqb d "." then inl build_tree
       else inr "No such file or directory";
     path_exists := fun _ => false;
     open_read := fun _ => ReadOk "";
     open_write := fun _ => None |}.

(** An ignore file with a comment, a blank line, an indented pattern and a
    last line without line end. *)
Definition ignore_text : string :=
  "# logs" +++ nl +++ nl +++ "  *.log " +++ nl +++ "build".

Definition ignore_world : world :=
  {| getcwd := "/proj";
     script_file := "/opt/code2md/code2md.py";
     now := "2024-01-01 00:00:00";
     scandir := fun d =>
       if String.eqb d "." then inl (File ".gitignore" :: build_tree)
       else inr "No such file or directory";
     path_exists := fun p => String.eqb p "./.gitignore";
     open_read := fun p =>
       if String.eqb p "./.gitignore" then ReadOk ignore_text else ReadOk "";
     open_write := fun _ => None |}.

(** ** The rest of the program: the link of a file, the entry point *)

(** The link-friendly version of a filename (line 139), as [toc_step]
    computes it. *)
Definition link_of (file : string) : string :=
  replace "." "" (replace " " "-" file).

(** [subseq xs ys]: [xs] is [ys] with some elements left out, the others
    in the same order. *)
Inductive subseq : list string -> list string -> Prop :=
| subseq_nil : subseq [] []
| subseq_skip : forall x xs ys, subseq xs ys -> subseq xs (x :: ys)
| subseq_take : forall x xs ys, subseq xs ys -> subseq (x :: xs) (x :: ys).

(** The files kept by a list of answers, one answer per file. *)
Fixpoint chosen (files : list string) (answers : list bool) : list string :=
  match files, answers with
  | f :: files', a :: answers' =>
      if a then f :: chosen files' answers' else chosen files' answers'
  | _, _ => []
  end.

(** The prompts printed when each file gets one valid answer. *)
Definition prompts (files : list string) : list string :=
  map confirmation_prompt files.

(** What [parse_arguments] returns (lines 97-103). *)
Record namespace : Type := {
  arg_output : string;
  arg_all : bool;
  arg_recursive : bool;
  arg_directory : string;
  arg_ignore_gitignore : bool
}.

(** The script entry point (lines 236-242) once the arguments are parsed:
    the exit status is 1 when an exception reaches it, which it logs, and 0
    otherwise. *)
Definition script_entry (fnmatch : string -> string -> bool) (w : world)
    (args : namespace) : M nat :=
  try_except
    (combine_files_to_markdown fnmatch w (arg_output args) (arg_all args)
       (arg_directory args) (arg_recursive args) (arg_ignore_gitignore args) ;;;
     ret 0)
    (fun e =>
       Some (logging ERROR ("An error occurred: " +++ exn_str e) ;;; ret 1)).

(** ** The unit tests (unittest.py) *)

(** What [setUp] leaves behind in the temporary directory [test_dir]: the
    four files it creates, in whatever order the directory lists them, the
    ignore file holding [*.log]. *)
Definition fixture (w : world) (test_dir : string) : Prop :=
  (exists entries,
     scandir w test_dir = inl entries
     /\ forall n, In n entries <->
                  In n [File "test1.py"; File "test2.js"; File ".gitignore";
                        File "ignored.log"])
  /\ path_exists w (posixpath.join test_dir ".gitignore") = true
  /\ open_read w (posixpath.join test_dir ".gitignore") = ReadOk "*.log".

(** The assertions of [test_parse_gitignore] (lines 27-29). *)
Definition test_parse_gitignore (w : world) (test_dir : string) : Prop :=
  parse_gitignore w test_dir = Return ["*.log"].

(** The assertions of [test_collect_files] (lines 31-35); [collect_files]
    is called with its default arguments. *)
Definition test_collect_files (fnmatch : string -> string -> bool)
    (w : world) (test_dir : string) : Prop :=
  exists files,
    collect_files fnmatch w test_dir false None = Return files
    /\ In (posixpath.join test_dir "test1.py") files
    /\ In (posixpath.join test_dir "test2.js") files
    /\ ~ In (posixpath.join test_dir "ignored.log") files.

(** The assertions of [test_get_language_identifier] (lines 37-40). *)
Definition test_get_language_identifier : Prop :=
  get_language_identifier "test.py" = "python"
  /\ get_language_identifier "test.js" = "javascript"
  /\ get_language_identifier "test.unknown" = "".

(** A directory whose ignore file cannot be read. *)
Definition sealed_world : world :=
  {| getcwd := "/proj";
     script_file := "/opt/code2md/code2md.py";
     now := "2024-01-01 00:00:00";
     scandir := fun d =>
       if String.eqb d "." then inl [File ".gitignore"; File "a.py"]
       else inr "No such file or directory";
     path_exists := fun p => String.eqb p "./.gitignore";
     open_read := fun p =>
       if String.eqb p "./.gitignore" then ReadIOError "Permission denied"
       else ReadOk "x = 1";
     open_write := fun _ => None |}.

(** A directory in which no file can be created, with two readable files. *)
Definition readonly_world : world :=
  {| getcwd := "/media/cd";
     script_file := "/opt/code2md/code2md.py";
     now := "2024-01-01 00:00:00";
     scandir := fun d =>
       if String.eqb d "." then inl [File "a.py"; File "b.py"]
       else inr "No such file or directory";
     path_exists := fun _ => false;
     open_read := fun _ => ReadOk "x = 1";
     open_write := fun _ => Some "Read-only file system" |}.

(** A directory with a text file, a binary file that does not decode, and
    another text file. *)
Definition binary_world : world :=
  {| getcwd := "/proj";
     script_file := "/opt/code2md/code2md.py";
     now := "2024-01-01 00:00:00";
     scandir := fun d =>
       if String.eqb d "." then inl [File "a.py"; File "logo.png"; File "z.py"]
       else inr "No such file or directory";
     path_exists := fun _ => false;
     open_read := fun p =>
       if String.eqb p "./logo.png"
       then ReadDecodeError "'utf-8' codec can't decode byte 0x89"
       else ReadOk "x = 1";
     open_write := fun _ => None |}.

(** A directory with a dangling symbolic link, a regular file and a
    sub-directory. *)
Definition link_world : world :=
  {| getcwd := "/proj";
     script_file := "/opt/code2md/code2md.py";
     now := "2024-01-01 00:00:00";
     scandir := fun d =>
       if String.eqb d "."
       then inl [Special "gone.txt"; File "a.py"; Dir "sub" [File "b.py"]]
       else inr "No such file or directory";
     path_exists := fun _ => false;
     open_read := fun p =>
       if String.eqb p "./gone.txt" then ReadIOError "No such file or directory"
       else ReadOk "x = 1";
     open_write := fun _ => None |}.

(** Two spellings of one place: the same components from the root.
    Without symbolic links, and where a path that begins with two slashes
    starts at the root like any other (as on Linux), two such paths name
    the same file. *)
Definition same_location (cwd p q : string) : Prop :=
  components (posixpath.abspath cwd p) = components (posixpath.abspath cwd q).

(** The directory [/proj], scanned under the spelling [//proj] by a program
    that runs in it, with a file [big.txt] and the output file [out.md] of
    an earlier run; [text] is what reading [out.md] gives. *)
Definition slash_world (big text : string) : world :=
  {| getcwd := "/proj";
     script_file := "/opt/code2md/code2md.py";
     now := "2024-01-01 00:00:00";
     scandir := fun d =>
       if String.eqb d "//proj" then inl [File "big.txt"; File "out.md"]
       else inr "No such file or directory";
     path_exists := fun _ => false;
     open_read := fun p =>
       if String.eqb p "//proj/out.md" then ReadOk text else ReadOk big;
     open_write := fun _ => None |}.

(** * Properties *)

(** ** Strings *)

Lemma append_nil_r (s : string) : s +++ "" = s.
Proof. induction s as [|c s IH]; simpl; [reflexivity | now rewrite IH]. Qed.

Lemma append_assoc (a b c : string) : (a +++ b) +++ c = a +++ (b +++ c).
Proof. induction a as [|x a IH]; simpl; [reflexivity | now rewrite IH]. Qed.

Lemma split_not_nil (c : ascii) (s : string) : split c s <> [].
Proof.
  induction s as [|d s IH]; simpl; [discriminate|].
  destruct (Ascii.eqb d c); [discriminate|].
  destruct (split c s); discriminate.
Qed.

(** A piece without separator is returned whole. *)
Lemma split_no_sep (c : ascii) (s : string) :
  contains c s = false -> split c s = [s].
Proof.
  induction s as [|d s IH]; simpl; [reflexivity|].
  rewrite Ascii.eqb_sym. destruct (Ascii.eqb c d) eqn:E; simpl; [discriminate|].
  intros H. now rewrite (IH H).
Qed.

(** Splitting distributes over a separator. *)
Lemma split_app (c : ascii) (a b : string) :
  split c (a +++ String c b) = split c a ++ split c b.
Proof.
  induction a as [|d a IH]; simpl.
  - now rewrite Ascii.eqb_refl.
  - rewrite IH. destruct (Ascii.eqb d c); [reflexivity|].
    pose proof (split_not_nil c a) as N.
    destruct (split c a); [contradiction | reflexivity].
Qed.

Lemma last_item_app (xs : list string) (e : string) :
  last_item (xs ++ [e]) = Some e.
Proof.
  destruct xs as [|x xs]; simpl; [reflexivity|].
  now rewrite last_last.
Qed.

(** The last piece of [stem.ext] is [ext] when [ext] holds no period. *)
Lemma last_item_split (c : ascii) (stem ext : string) :
  contains c ext = false ->
  last_item (split c (stem +++ String c ext)) = Some ext.
Proof.
  intros H. rewrite split_app, (split_no_sep _ _ H). apply last_item_app.
Qed.

(** ** Language identification *)

(** On a filename with an extension the language is what the table gives
    for the lower-cased extension. *)
Lemma get_language_identifier_extension (stem ext : string) :
  contains "." ext = false ->
  get_language_identifier (stem +++ "." +++ ext)
  = dict_get language_map (lower ext) "".
Proof.
  intros H. unfold get_language_identifier, extension_of.
  change (stem +++ "." +++ ext) with (stem +++ String "." ext).
  now rewrite (last_item_split _ stem _ H).
Qed.

(** The fifteen entries of the table. *)
Lemma language_map_entries :
  map (fun k => dict_get language_map k "")
      ["py"; "js"; "html"; "css"; "java"; "c"; "cpp"; "md"; "txt"; "json";
       "xml"; "sql"; "sh"; "yaml"; "yml"]
  = ["python"; "javascript"; "html"; "css"; "java"; "c"; "cpp"; "markdown";
     "text"; "json"; "xml"; "sql"; "bash"; "yaml"; "yaml"].
Proof. reflexivity. Qed.

(** An extension that is no key of the table gives the empty tag. *)
Lemma dict_get_unknown (d : list (string * string)) (key : string) :
  ~ In key (map fst d) -> dict_get d key "" = "".
Proof.
  induction d as [|[k v] d IH]; simpl; [reflexivity|].
  intros N. destruct (String.eqb k key) eqn:E.
  - apply String.eqb_eq in E. tauto.
  - apply IH. tauto.
Qed.

Lemma get_language_identifier_unknown (stem ext : string) :
  contains "." ext = false ->
  ~ In (lower ext) (map fst language_map) ->
  get_language_identifier (stem +++ "." +++ ext) = "".
Proof.
  intros H N. rewrite (get_language_identifier_extension _ _ H).
  now apply dict_get_unknown.
Qed.

(** A filename without any period is looked up whole. *)
Lemma get_language_identifier_no_period (filename : string) :
  contains "." filename = false ->
  get_language_identifier filename
  = dict_get language_map (lower filename) "".
Proof.
  intros H. unfold get_language_identifier, extension_of.
  now rewrite (split_no_sep _ _ H).
Qed.

Example language_of_test_py : get_language_identifier "test.py" = "python".
Proof. reflexivity. Qed.

Example language_of_test_js : get_language_identifier "test.js" = "javascript".
Proof. reflexivity. Qed.

Example language_of_test_unknown : get_language_identifier "test.unknown" = "".
Proof. reflexivity. Qed.

Example language_of_upper_case : get_language_identifier "Main.JAVA" = "java".
Proof. reflexivity. Qed.

Example language_of_makefile : get_language_identifier "Makefile" = "".
Proof. reflexivity. Qed.

(** C1: the claim says that a filename with no extension yields the empty
    string.  The file named [py] has no period, hence no extension, and
    [get_language_identifier] answers [python]: the last piece of
    [filename.split('.')] is then the whole filename, which is looked up as
    if it were an extension. *)
Theorem get_language_identifier_bare_name :
  contains "." "py" = false /\ get_language_identifier "py" = "python".
Proof. split; reflexivity. Qed.

(** ** The table of contents *)

Lemma replace_anchor (file : string) :
  replace "." "" (replace " " "-" file) = anchor file.
Proof.
  induction file as [|c file IH]; simpl; [reflexivity|].
  destruct (Ascii.eqb c " ") eqn:Es.
  - simpl. now rewrite IH.
  - simpl. destruct (Ascii.eqb c "."); simpl; now rewrite IH.
Qed.

Lemma toc_step_entry (toc file : string) :
  toc_step toc file = toc +++ toc_entry anchor file.
Proof. unfold toc_step, toc_entry. now rewrite replace_anchor. Qed.

Lemma fold_toc_step (files : list string) (toc : string) :
  fold_left toc_step files toc
  = toc +++ concat_all (map (toc_entry anchor) files).
Proof.
  revert toc. induction files as [|f files IH]; intros toc; simpl.
  - now rewrite append_nil_r.
  - now rewrite IH, toc_step_entry, append_assoc.
Qed.

(** C2, as amended: the table of contents is its heading, then one link
    line per file in list order, whose anchor is the filename with every
    space replaced by a hyphen and every period removed, then an empty
    line. *)
Theorem generate_toc_entries (files : list string) :
  generate_toc files = toc_of anchor files.
Proof.
  unfold generate_toc, toc_of. rewrite fold_toc_step.
  now rewrite !append_assoc.
Qed.

(** C2, as stated, fails on a filename with a space: the anchor keeps a
    hyphen where the space was. *)
Lemma generate_toc_keeps_hyphen :
  generate_toc ["my file.py"] <> toc_of anchor_stripped ["my file.py"].
Proof. vm_compute. discriminate. Qed.

(** ** Writing the document *)

Lemma state_eta (st : state) :
  {| stdin := stdin st; stdout := stdout st; log := log st;
     outfile := outfile st |} = st.
Proof. now destruct st. Qed.

(** The loop over the selected files changes the log and the output file
    only, by what [sections_log] and [combined_files] say. *)
Lemma write_sections_run (w : world) (files : list string) (st : state) :
  write_sections w files st
  = (sections_outcome w files,
     {| stdin := stdin st; stdout := stdout st;
        log := log st ++ sections_log w files;
        outfile :=
          match outfile st with
          | Some ws => Some (ws ++ flat_map (section_of w) (combined_files w files))
          | None => None
          end |}).
Proof.
  revert st. induction files as [|f files IH]; intros [i o l out]; simpl.
  - unfold ret. rewrite app_nil_r. now destruct out; rewrite ?app_nil_r.
  - unfold bind, write_section, try_except, read_file_content.
    destruct (open_read w f) as [text|e|e] eqn:R; simpl.
    + rewrite IH. simpl. unfold section_of at 2. rewrite R.
      destruct out; simpl; [|reflexivity].
      rewrite <- !app_assoc. reflexivity.
    + rewrite IH. simpl. rewrite <- !app_assoc. reflexivity.
    + rewrite app_nil_r. now destruct out; rewrite ?app_nil_r.
Qed.

(** What the [with] block leaves in the output file once it is open. *)
Lemma write_document_run (w : world) (output_file : string)
    (files : list string) (st : state) :
  open_write w output_file = None ->
  write_document w output_file files st
  = (sections_outcome w files,
     {| stdin := stdin st; stdout := stdout st;
        log := log st ++ sections_log w files;
        outfile :=
          Some (metadata_writes (now w)
                ++ generate_toc files
                   :: flat_map (section_of w) (combined_files w files)) |}).
Proof.
  intros W. unfold write_document, bind, open_outfile. rewrite W. simpl.
  now rewrite write_sections_run.
Qed.

Lemma write_document_denied (w : world) (output_file e : string)
    (files : list string) (st : state) :
  open_write w output_file = Some e ->
  write_document w output_file files st = (Raise (OSError e), st).
Proof.
  intros W. unfold write_document, bind, open_outfile. now rewrite W.
Qed.

(** In batch mode the selection accepts every candidate and reads nothing
    from the terminal. *)
Lemma select_files_batch (files acc : list string) (st : state) :
  select_files true files acc st = (Return (acc ++ files), st).
Proof.
  revert acc. induction files as [|f files IH]; intros acc; simpl.
  - now rewrite app_nil_r.
  - unfold bind, ret. rewrite IH. now rewrite <- app_assoc.
Qed.

(** Every file whose section is written could be read. *)
Lemma combined_files_readable (w : world) (files : list string) (f : string) :
  In f (combined_files w files) ->
  In f files /\ exists text, open_read w f = ReadOk text.
Proof.
  induction files as [|g files IH]; simpl; [tauto|].
  destruct (open_read w g) as [text|e|e] eqn:R; simpl.
  - intros [->|H]; [split; [now left | now exists text]|].
    destruct (IH H) as [I T]. split; [now right | exact T].
  - intros H. destruct (IH H) as [I T]. split; [now right | exact T].
  - tauto.
Qed.

Lemma combined_files_length (w : world) (files : list string) :
  length (combined_files w files) <= length files.
Proof.
  induction files as [|g files IH]; simpl; [lia|].
  destruct (open_read w g); simpl; lia.
Qed.

(** ** Runs of the main function *)

Section Runs.

Variable fnmatch : string -> string -> bool.
Variable w : world.
Variables output_file directory : string.
Variables recursive ignore_gitignore : bool.

(** A failure before the selection is logged and raised again. *)
Lemma run_without_candidates (include_all : bool) (e : exn) (st : state) :
  candidate_files fnmatch w output_file directory recursive ignore_gitignore
  = Raise e ->
  combine_files_to_markdown fnmatch w output_file include_all directory
    recursive ignore_gitignore st
  = (Raise e,
     {| stdin := stdin st; stdout := stdout st;
        log := log st ++ [(ERROR, "An error occurred while combining files: "
                                  +++ exn_str e)];
        outfile := outfile st |}).
Proof.
  unfold combine_files_to_markdown, try_except, bind, lift.
  intros ->. reflexivity.
Qed.

(** So is the failure to open the output file. *)
Lemma run_without_output (include_all : bool) (files fti : list string)
    (e : string) (st st1 : state) :
  candidate_files fnmatch w output_file directory recursive ignore_gitignore
  = Return files ->
  select_files include_all files [] st = (Return fti, st1) ->
  open_write w output_file = Some e ->
  combine_files_to_markdown fnmatch w output_file include_all directory
    recursive ignore_gitignore st
  = (Raise (OSError e),
     {| stdin := stdin st1; stdout := stdout st1;
        log := log st1 ++ [(ERROR, "An error occurred while combining files: "
                                   +++ e)];
        outfile := outfile st1 |}).
Proof.
  unfold combine_files_to_markdown, try_except, bind, lift.
  intros -> S W. rewrite S. rewrite write_document_denied with (e := e) by exact W.
  reflexivity.
Qed.

(** Once the files are selected and the output file is open, the document
    holds the metadata, the table of contents of the selected files and the
    sections of those that could be read; the last log record is the
    summary, or the error that stopped the loop. *)
Lemma run_after_selection (include_all : bool) (files fti : list string)
    (st st1 : state) :
  candidate_files fnmatch w output_file directory recursive ignore_gitignore
  = Return files ->
  select_files include_all files [] st = (Return fti, st1) ->
  open_write w output_file = None ->
  combine_files_to_markdown fnmatch w output_file include_all directory
    recursive ignore_gitignore st
  = (sections_outcome w fti,
     {| stdin := stdin st1; stdout := stdout st1;
        log := log st1 ++ sections_log w fti
               ++ [match sections_outcome w fti with
                   | Return _ =>
                       (INFO, summary (length fti) (length files) output_file)
                   | Raise e =>
                       (ERROR, "An error occurred while combining files: "
                               +++ exn_str e)
                   end];
        outfile :=
          Some (metadata_writes (now w)
                ++ generate_toc fti
                   :: flat_map (section_of w) (combined_files w fti)) |}).
Proof.
  unfold combine_files_to_markdown, try_except, bind, lift.
  intros -> S W. rewrite S. rewrite write_document_run by exact W.
  destruct (sections_outcome w fti) as [[]|e]; simpl;
    unfold logging, bind, raise; simpl; rewrite <- app_assoc; reflexivity.
Qed.

End Runs.

(** ** Files that cannot be read *)

(** A selected file that cannot be read makes the number of sections
    smaller than the number of selected files. *)
Lemma combined_files_shorter (w : world) (files : list string)
    (f e : string) :
  In f files -> open_read w f = ReadIOError e ->
  length (combined_files w files) < length files.
Proof.
  induction files as [|g files IH]; simpl; [tauto|].
  intros [->|I] R.
  - rewrite R. pose proof (combined_files_length w files). lia.
  - specialize (IH I R). destruct (open_read w g); simpl; lia.
Qed.

(** When only [IOError]s occur the run returns, and its last log record
    counts the selected files against the candidates. *)
Lemma summary_counts_selected (fnmatch : string -> string -> bool)
    (w : world) (output_file directory : string)
    (include_all recursive ignore_gitignore : bool)
    (files fti : list string) (st st1 : state) :
  candidate_files fnmatch w output_file directory recursive ignore_gitignore
  = Return files ->
  select_files include_all files [] st = (Return fti, st1) ->
  open_write w output_file = None ->
  sections_outcome w fti = Return tt ->
  let result :=
    combine_files_to_markdown fnmatch w output_file include_all directory
      recursive ignore_gitignore st in
  fst result = Return tt
  /\ last (log (snd result)) (INFO, "")
     = (INFO, summary (length fti) (length files) output_file).
Proof.
  intros C S W O result. subst result.
  rewrite run_after_selection with (1 := C) (2 := S) (3 := W). simpl. rewrite O.
  split; [reflexivity|]. now rewrite app_assoc, last_last.
Qed.

(** C3: the claim says that the final summary reports the count of files
    combined.  In a directory with a readable [a.py] and an unreadable
    [b.py], the batch run logs the failure, skips [b.py], goes on and
    returns; the document holds the one section of [a.py], and the summary
    reads that 2 out of 2 files were combined: it counts the selected
    files, the skipped one included. *)
Theorem summary_counts_skipped_file :
  let result :=
    combine_files_to_markdown wildcard_fnmatch locked_world "out.md" true "."
      false false (initial_state []) in
  fst result = Return tt
  /\ combined_files locked_world ["./a.py"; "./b.py"] = ["./a.py"]
  /\ outfile (snd result)
     = Some (metadata_writes "2024-01-01 00:00:00"
             ++ generate_toc ["./a.py"; "./b.py"]
                :: section_strings "./a.py" "x = 1")
  /\ log (snd result)
     = [ (ERROR, "Error reading file ./b.py: Permission denied");
         (ERROR, "Skipping file ./b.py: Unable to read file: ./b.py");
         (INFO, "Successfully combined 2 out of 2 files into out.md") ].
Proof. vm_compute. repeat split. Qed.

Lemma concat_all_app (xs ys : list string) :
  concat_all (xs ++ ys) = concat_all xs +++ concat_all ys.
Proof.
  induction xs as [|x xs IH]; simpl; [reflexivity|].
  now rewrite IH, append_assoc.
Qed.

(** Each listed file has its link line in the table of contents. *)
Lemma generate_toc_has_entry (files : list string) (f : string) :
  In f files ->
  exists before after,
    generate_toc files = before +++ toc_entry anchor f +++ after.
Proof.
  intros I. destruct (in_split _ _ I) as [l1 [l2 ->]].
  rewrite generate_toc_entries. unfold toc_of.
  exists ("# Table of Contents" +++ nl +++ nl
          +++ concat_all (map (toc_entry anchor) l1)),
         (concat_all (map (toc_entry anchor) l2) +++ nl).
  rewrite map_app, concat_all_app.
  change (concat_all (map (toc_entry anchor) (f :: l2)))
    with (toc_entry anchor f +++ concat_all (map (toc_entry anchor) l2)).
  rewrite !append_assoc. reflexivity.
Qed.

(** C9: when a selected file cannot be read, the document that is written
    still lists it in the table of contents, which is built from the whole
    selection before any content is read, and no section is written for
    it. *)
Theorem toc_lists_unreadable_file (fnmatch : string -> string -> bool)
    (w : world) (output_file directory : string)
    (include_all recursive ignore_gitignore : bool)
    (files fti : list string) (st st1 : state) (f e : string) :
  candidate_files fnmatch w output_file directory recursive ignore_gitignore
  = Return files ->
  select_files include_all files [] st = (Return fti, st1) ->
  open_write w output_file = None ->
  In f fti ->
  open_read w f = ReadIOError e ->
  let result :=
    combine_files_to_markdown fnmatch w output_file include_all directory
      recursive ignore_gitignore st in
  outfile (snd result)
  = Some (metadata_writes (now w)
          ++ generate_toc fti
             :: flat_map (section_of w) (combined_files w fti))
  /\ (exists before after,
        generate_toc fti = before +++ toc_entry anchor f +++ after)
  /\ ~ In f (combined_files w fti)
  /\ section_of w f = [].
Proof.
  intros C S W I R result. subst result.
  rewrite run_after_selection with (1 := C) (2 := S) (3 := W). simpl.
  split; [reflexivity|]. split; [now apply generate_toc_has_entry|]. split.
  - intros H. apply combined_files_readable in H. destruct H as [_ [text T]].
    congruence.
  - unfold section_of. now rewrite R.
Qed.

Lemma toc_lists_unreadable_file_witness :
  let result :=
    combine_files_to_markdown wildcard_fnmatch locked_world "out.md" true "."
      false false (initial_state []) in
  outfile (snd result)
  = Some (metadata_writes "2024-01-01 00:00:00"
          ++ generate_toc ["./a.py"; "./b.py"]
             :: flat_map (section_of locked_world)
                  (combined_files locked_world ["./a.py"; "./b.py"]))
  /\ (exists before after,
        generate_toc ["./a.py"; "./b.py"]
        = before +++ toc_entry anchor "./b.py" +++ after)
  /\ ~ In "./b.py" (combined_files locked_world ["./a.py"; "./b.py"])
  /\ section_of locked_world "./b.py" = [].
Proof.
  apply (@toc_lists_unreadable_file wildcard_fnmatch locked_world "out.md" "."
           true false false ["./a.py"; "./b.py"] ["./a.py"; "./b.py"]
           (initial_state []) (initial_state []) "./b.py" "Permission denied").
  - reflexivity.
  - reflexivity.
  - reflexivity.
  - simpl. right. left. reflexivity.
  - reflexivity.
Defined.

(** ** Two runs in batch mode *)

Lemma candidate_files_with_now (fnmatch : string -> string -> bool)
    (w : world) (t output_file directory : string)
    (recursive ignore_gitignore : bool) :
  candidate_files fnmatch (with_now w t) output_file directory recursive
    ignore_gitignore
  = candidate_files fnmatch w output_file directory recursive ignore_gitignore.
Proof. reflexivity. Qed.

Lemma sections_with_now (w : world) (t : string) (files : list string) :
  sections_outcome (with_now w t) files = sections_outcome w files
  /\ sections_log (with_now w t) files = sections_log w files
  /\ combined_files (with_now w t) files = combined_files w files.
Proof.
  induction files as [|f files [IH1 [IH2 IH3]]]; simpl; [auto|].
  rewrite IH1, IH2, IH3. auto.
Qed.

Lemma section_of_with_now (w : world) (t : string) (files : list string) :
  flat_map (section_of (with_now w t)) files = flat_map (section_of w) files.
Proof. induction files as [|f files IH]; simpl; [|rewrite IH]; reflexivity. Qed.

(** When every read gives the same result in both runs: two batch runs on
    the same directory and flags, started at different times of the clock
    (and whatever the terminal holds), end the same way with the same log;
    either none of them opens the output file, or both write the same table
    of contents and the same sections after a metadata block that differs
    in its timestamp only. *)
Theorem batch_runs_differ_in_timestamp_only
    (fnmatch : string -> string -> bool) (w : world)
    (output_file directory : string) (recursive ignore_gitignore : bool)
    (t1 t2 : string) (lines1 lines2 : list string) :
  let run t lines :=
    combine_files_to_markdown fnmatch (with_now w t) output_file true
      directory recursive ignore_gitignore (initial_state lines) in
  fst (run t1 lines1) = fst (run t2 lines2)
  /\ log (snd (run t1 lines1)) = log (snd (run t2 lines2))
  /\ ((outfile (snd (run t1 lines1)) = None
       /\ outfile (snd (run t2 lines2)) = None)
      \/ exists files,
           candidate_files fnmatch w output_file directory recursive
             ignore_gitignore = Return files
           /\ outfile (snd (run t1 lines1))
              = Some (metadata_writes t1
                      ++ generate_toc files
                         :: flat_map (section_of w) (combined_files w files))
           /\ outfile (snd (run t2 lines2))
              = Some (metadata_writes t2
                      ++ generate_toc files
                         :: flat_map (section_of w) (combined_files w files))).
Proof.
  intros run. subst run. cbv beta.
  destruct (candidate_files fnmatch w output_file directory recursive
              ignore_gitignore) as [files|e] eqn:C.
  - destruct (open_write w output_file) as [err|] eqn:W.
    + rewrite !run_without_output
        with (1 := C : candidate_files fnmatch (with_now w _) _ _ _ _ = _)
             (2 := select_files_batch files [] _)
             (3 := W : open_write (with_now w _) output_file = _).
      simpl. auto.
    + rewrite !run_after_selection
        with (1 := C : candidate_files fnmatch (with_now w _) _ _ _ _ = _)
             (2 := select_files_batch files [] _)
             (3 := W : open_write (with_now w _) output_file = _).
      simpl. destruct (sections_with_now w t1 files) as [O1 [L1 F1]].
      destruct (sections_with_now w t2 files) as [O2 [L2 F2]].
      rewrite O1, O2, L1, L2, F1, F2, !section_of_with_now.
      split; [reflexivity|]. split; [reflexivity|].
      right. exists files. auto.
  - rewrite !run_without_candidates
      with (1 := C : candidate_files fnmatch (with_now w _) _ _ _ _ = _).
    simpl. auto.
Qed.

(** The batch run on the directory spelled [//proj]. *)
Lemma batch_run_reads_its_output_aux (fnmatch : string -> string -> bool)
    (t big text : string) :
  fst (combine_files_to_markdown fnmatch (with_now (slash_world big text) t)
         "out.md" true "//proj" false true (initial_state []))
  = Return tt
  /\ outfile (snd (combine_files_to_markdown fnmatch
                     (with_now (slash_world big text) t)
                     "out.md" true "//proj" false true (initial_state [])))
     = Some (metadata_writes t
             ++ generate_toc ["//proj/big.txt"; "//proj/out.md"]
                :: section_strings "//proj/big.txt" big
                   ++ section_strings "//proj/out.md" text).
Proof.
  assert (C : candidate_files fnmatch (with_now (slash_world big text) t)
                "out.md" "//proj" false true
              = Return ["//proj/big.txt"; "//proj/out.md"]) by reflexivity.
  rewrite run_after_selection
    with (1 := C)
         (2 := select_files_batch ["//proj/big.txt"; "//proj/out.md"] []
                 (initial_state []))
         (3 := eq_refl).
  split; reflexivity.
Qed.


(** Two such runs that read back different beginnings of their documents
    write different sections. *)
Lemma read_back_sections_differ (fnmatch : string -> string -> bool)
    (t1 t2 big text1 text2 : string) :
  text1 <> text2 ->
  outfile (snd (combine_files_to_markdown fnmatch
                  (with_now (slash_world big text1) t1)
                  "out.md" true "//proj" false true (initial_state [])))
  = Some (metadata_writes t1
          ++ generate_toc ["//proj/big.txt"; "//proj/out.md"]
             :: section_strings "//proj/big.txt" big
                ++ section_strings "//proj/out.md" text1)
  /\ outfile (snd (combine_files_to_markdown fnmatch
                     (with_now (slash_world big text2) t2)
                     "out.md" true "//proj" false true (initial_state [])))
     = Some (metadata_writes t2
             ++ generate_toc ["//proj/big.txt"; "//proj/out.md"]
                :: section_strings "//proj/big.txt" big
                   ++ section_strings "//proj/out.md" text2)
  /\ section_strings "//proj/out.md" text1
     <> section_strings "//proj/out.md" text2.
Proof.
  intros D.
  destruct (batch_run_reads_its_output_aux fnmatch t1 big text1) as [_ E1].
  destruct (batch_run_reads_its_output_aux fnmatch t2 big text2) as [_ E2].
  split; [exact E1|]. split; [exact E2|].
  unfold section_strings. intros H. inversion H. contradiction.
Qed.

(** ** Asking the user *)

Lemma answer_of_yes (line : string) :
  answer_of line = Some true <-> In (strip (lower line)) ["y"; "yes"].
Proof.
  unfold answer_of, str_in. simpl.
  destruct (String.eqb_spec (strip (lower line)) "y") as [->|N1]; simpl.
  - split; auto.
  - destruct (String.eqb_spec (strip (lower line)) "yes") as [->|N2]; simpl.
    + split; auto.
    + split.
      * destruct (_ || _); discriminate.
      * intros [H|[H|[]]]; congruence.
Qed.

Lemma answer_of_no (line : string) :
  answer_of line = Some false <-> In (strip (lower line)) ["n"; "no"].
Proof.
  unfold answer_of, str_in. simpl.
  destruct (String.eqb_spec (strip (lower line)) "y") as [E|N1]; simpl.
  - rewrite E. split; [discriminate|]. intros [H|[H|[]]]; discriminate.
  - destruct (String.eqb_spec (strip (lower line)) "yes") as [E|N2]; simpl.
    + rewrite E. split; [discriminate|]. intros [H|[H|[]]]; discriminate.
    + destruct (String.eqb_spec (strip (lower line)) "n") as [->|N3]; simpl.
      * split; auto.
      * destruct (String.eqb_spec (strip (lower line)) "no") as [->|N4]; simpl.
        -- split; auto.
        -- split; [discriminate|]. intros [H|[H|[]]]; congruence.
Qed.

(** One round of the loop. *)
Lemma confirmation_loop_round (filename line : string)
    (lines printed : list string) :
  confirmation_loop filename (line :: lines) printed
  = match answer_of line with
    | Some b => (Return b, lines, printed ++ [confirmation_prompt filename])
    | None =>
        confirmation_loop filename lines
          ((printed ++ [confirmation_prompt filename])
           ++ [invalid_input_message])
    end.
Proof.
  unfold answer_of. cbn [confirmation_loop].
  destruct (str_in _ ["y"; "yes"]); [reflexivity|].
  destruct (str_in _ ["n"; "no"]); reflexivity.
Qed.

Lemma confirmation_loop_first_valid (filename : string)
    (invalid : list string) (answer : string) (rest printed : list string)
    (b : bool) :
  Forall (fun line => answer_of line = None) invalid ->
  answer_of answer = Some b ->
  confirmation_loop filename (invalid ++ answer :: rest) printed
  = (Return b, rest,
     printed ++ rejected filename invalid ++ [confirmation_prompt filename]).
Proof.
  intros F A. revert printed.
  induction F as [|line invalid L F IH]; intros printed.
  - cbn [app rejected flat_map]. now rewrite confirmation_loop_round, A.
  - cbn [app]. rewrite confirmation_loop_round, L, IH.
    cbn [rejected flat_map]. rewrite <- !app_assoc. reflexivity.
Qed.

(** Without a valid answer the terminal runs dry and [input] raises. *)
Lemma confirmation_loop_eof (filename : string) (invalid printed : list string) :
  Forall (fun line => answer_of line = None) invalid ->
  confirmation_loop filename invalid printed
  = (Raise EOFError, [],
     printed ++ rejected filename invalid ++ [confirmation_prompt filename]).
Proof.
  intros F. revert printed.
  induction F as [|line invalid L F IH]; intros printed.
  - reflexivity.
  - rewrite confirmation_loop_round, L, IH.
    cbn [rejected flat_map]. rewrite <- !app_assoc. reflexivity.
Qed.

(** C7: whatever the terminal holds, when its lines are some answers that
    are neither yes nor no followed by a valid answer, the function
    prompts once for each of them, rejects the invalid ones with a
    message, and returns what the first valid answer says: [True] when,
    lower-cased and stripped, it is [y] or [yes], [False] when it is [n]
    or [no]; the lines after it are left unread. *)
Theorem get_user_confirmation_first_valid (filename : string) (st : state)
    (invalid : list string) (answer : string) (rest : list string) (b : bool) :
  stdin st = invalid ++ answer :: rest ->
  Forall (fun line => answer_of line = None) invalid ->
  answer_of answer = Some b ->
  get_user_confirmation filename st
  = (Return b,
     {| stdin := rest;
        stdout := stdout st ++ rejected filename invalid
                  ++ [confirmation_prompt filename];
        log := log st; outfile := outfile st |})
  /\ (b = true <-> In (strip (lower answer)) ["y"; "yes"])
  /\ (b = false <-> In (strip (lower answer)) ["n"; "no"]).
Proof.
  intros I F A. split.
  - unfold get_user_confirmation. rewrite I.
    now rewrite confirmation_loop_first_valid with (1 := F) (2 := A).
  - rewrite <- answer_of_yes, <- answer_of_no, A.
    split; split; congruence.
Qed.

Lemma get_user_confirmation_first_valid_witness :
  get_user_confirmation "a.py" (initial_state ["maybe"; " YES "; "n"])
  = (Return true,
     {| stdin := ["n"];
        stdout := [] ++ rejected "a.py" ["maybe"]
                  ++ [confirmation_prompt "a.py"];
        log := []; outfile := None |})
  /\ (true = true <-> In (strip (lower " YES ")) ["y"; "yes"])
  /\ (true = false <-> In (strip (lower " YES ")) ["n"; "no"]).
Proof.
  apply (@get_user_confirmation_first_valid "a.py"
           (initial_state ["maybe"; " YES "; "n"]) ["maybe"] " YES " ["n"] true).
  - reflexivity.
  - repeat constructor.
  - reflexivity.
Defined.

(** ** The ignore file *)

(** The lines of a text make up the text. *)
Lemma readlines_concat (text : string) :
  concat_all (readlines text) = text.
Proof.
  induction text as [|c text IH]; simpl; [reflexivity|].
  destruct (Ascii.eqb_spec c "010") as [->|N]; simpl.
  - now rewrite IH.
  - destruct (readlines text) as [|line lines]; simpl in *;
      now rewrite <- IH.
Qed.

(** The loop of [parse_gitignore] keeps the stripped pattern lines, in
    order. *)
Lemma fold_gitignore_step (lines patterns : list string) :
  fold_left gitignore_step lines patterns
  = patterns ++ map strip (filter is_pattern_line lines).
Proof.
  revert patterns. induction lines as [|line lines IH]; intros patterns;
    simpl.
  - now rewrite app_nil_r.
  - rewrite IH. unfold gitignore_step, is_pattern_line.
    destruct (nonempty_str (strip line) && negb (startswith (strip line) "#"));
      simpl; [now rewrite <- app_assoc | reflexivity].
Qed.

(** C6: without an ignore file [parse_gitignore] returns the empty list;
    with an ignore file whose text has N lines that, once stripped, are
    neither empty nor begin with [#], it returns exactly those N lines,
    stripped, in the order of the file. *)
Theorem parse_gitignore_patterns (w : world) (directory text : string)
    (N : nat) :
  let gitignore_path := posixpath.join directory ".gitignore" in
  (path_exists w gitignore_path = false ->
   parse_gitignore w directory = Return [])
  /\ (path_exists w gitignore_path = true ->
      open_read w gitignore_path = ReadOk text ->
      length (filter is_pattern_line (readlines text)) = N ->
      exists patterns,
        parse_gitignore w directory = Return patterns
        /\ patterns = map strip (filter is_pattern_line (readlines text))
        /\ length patterns = N).
Proof.
  intros gitignore_path. unfold parse_gitignore. fold gitignore_path. split.
  - now intros ->.
  - intros -> -> L. eexists. split; [reflexivity|].
    rewrite fold_gitignore_step. simpl. split; [reflexivity|].
    now rewrite length_map.
Qed.

Lemma parse_gitignore_patterns_witness :
  exists patterns,
    parse_gitignore ignore_world "." = Return patterns
    /\ patterns = map strip (filter is_pattern_line (readlines ignore_text))
    /\ length patterns = 2.
Proof.
  apply (proj2 (parse_gitignore_patterns ignore_world "." ignore_text 2));
    reflexivity.
Defined.

Example parse_gitignore_ignore_text :
  parse_gitignore ignore_world "." = Return ["*.log"; "build"].
Proof. reflexivity. Qed.

Example parse_gitignore_fixture :
  parse_gitignore test_world test_dir = Return ["*.log"].
Proof. reflexivity. Qed.

(** ** Collecting the files *)

(** Induction over a directory tree. *)
Lemma node_induction (P : node -> Prop) :
  (forall name, P (File name)) ->
  (forall name children, Forall P children -> P (Dir name children)) ->
  (forall name, P (Special name)) ->
  forall n, P n.
Proof.
  intros HF HD HS. fix IH 1. intros [name|name children|name].
  - apply HF.
  - apply HD. induction children as [|c children IHc]; constructor.
    + apply IH.
    + exact IHc.
  - apply HS.
Qed.

Lemma join_nonempty (a b : string) : a <> "" -> posixpath.join a b <> "".
Proof.
  intros N. unfold posixpath.join.
  destruct (startswith b "/") eqn:S.
  - destruct b; [discriminate | discriminate].
  - destruct (String.eqb a "" || endswith_char a posixpath.sep);
      destruct a; simpl; congruence.
Qed.

Lemma files_of_walk_app (xs ys : list (string * list string * list string)) :
  files_of_walk (xs ++ ys) = files_of_walk xs ++ files_of_walk ys.
Proof. unfold files_of_walk. apply flat_map_app. Qed.

Lemma files_of_walk_cons (root : string) (dirs files : list string)
    (xs : list (string * list string * list string)) :
  files_of_walk ((root, dirs, files) :: xs)
  = map (posixpath.join root) files ++ files_of_walk xs.
Proof. reflexivity. Qed.

(** Below a non-empty directory name every path the walk builds is
    non-empty. *)
Lemma walk_node_nonempty (n : node) :
  forall top, top <> "" ->
  Forall (fun p => p <> "") (files_of_walk (walk_node top n)).
Proof.
  induction n as [name|name children IH|name] using node_induction;
    intros top N.
  - constructor.
  - cbn [walk_node]. set (root := posixpath.join top name).
    assert (R : root <> "") by now apply join_nonempty.
    rewrite files_of_walk_cons. apply Forall_app. split.
    + apply Forall_forall. intros p I.
      apply in_map_iff in I. destruct I as [file [<- _]].
      now apply join_nonempty.
    + induction IH as [|c children Hc _ IHc]; [constructor|].
      cbn [flat_map]. rewrite files_of_walk_app. apply Forall_app.
      split; [now apply Hc | exact IHc].
  - constructor.
Qed.

Lemma walked_files_nonempty (w : world) (directory : string) :
  directory <> "" -> Forall (fun p => p <> "") (walked_files w directory).
Proof.
  intros N. unfold walked_files, walk.
  destruct (scandir w directory) as [entries|e]; [|constructor].
  rewrite files_of_walk_cons. apply Forall_app. split.
  - apply Forall_forall. intros p I.
    apply in_map_iff in I. destruct I as [file [<- _]].
    now apply join_nonempty.
  - induction entries as [|c entries IH]; [constructor|].
    cbn [flat_map]. rewrite files_of_walk_app. apply Forall_app.
    split; [now apply walk_node_nonempty | exact IH].
Qed.

Lemma listed_files_nonempty (w : world) (directory : string)
    (recursive : bool) (cands : list string) :
  directory <> "" ->
  listed_files w directory recursive = Return cands ->
  Forall (fun p => p <> "") cands.
Proof.
  intros N. unfold listed_files. destruct recursive.
  - intros L. inversion L. now apply walked_files_nonempty.
  - destruct (scandir w directory) as [entries|e]; [|discriminate].
    intros L. inversion L. apply Forall_forall. intros p I.
    apply in_map_iff in I. destruct I as [n [<- _]].
    now apply join_nonempty.
Qed.

Lemma relpath_defined (cwd path start : string) :
  path <> "" -> exists rel_path, posixpath.relpath cwd path start = Some rel_path.
Proof.
  intros N. unfold posixpath.relpath.
  destruct (String.eqb_spec path "") as [E|_]; [contradiction|].
  destruct (_ ++ _); eauto.
Qed.

Section Exclusion.

Variable fnmatch : string -> string -> bool.
Variable w : world.
Variable directory : string.

(** On a non-empty path [is_ignored] returns, and says whether some
    pattern matches. *)
Lemma is_ignored_excluded (ignore_patterns : option (list string))
    (file_path : string) :
  file_path <> "" ->
  is_ignored fnmatch w directory ignore_patterns file_path
  = Return (excluded fnmatch w directory ignore_patterns file_path).
Proof.
  intros N. unfold is_ignored, excluded, matches_some.
  destruct (relpath_defined (getcwd w) directory N) as [rel_path ->].
  destruct ignore_patterns as [[|pattern patterns]|]; reflexivity.
Qed.

Lemma excluded_spec (ignore_patterns : option (list string))
    (file_path : string) :
  excluded fnmatch w directory ignore_patterns file_path = true
  <-> own_path_matches fnmatch w directory ignore_patterns file_path.
Proof.
  unfold excluded, own_path_matches, matches_some. split.
  - destruct ignore_patterns as [patterns|]; [|discriminate].
    destruct (posixpath.relpath _ _ _) as [rel_path|]; [|discriminate].
    intros E. apply existsb_exists in E. destruct E as [pattern [I E]].
    apply orb_true_iff in E. exists patterns, pattern, rel_path. auto.
  - intros [patterns [pattern [rel_path [-> [I [-> E]]]]]].
    apply existsb_exists. exists pattern. split; [exact I|].
    now apply orb_true_iff.
Qed.

Lemma excluded_without_patterns (ignore_patterns : option (list string))
    (file_path : string) :
  ignore_patterns = None \/ ignore_patterns = Some [] ->
  excluded fnmatch w directory ignore_patterns file_path = false.
Proof.
  intros [->| ->]; [reflexivity|]. unfold excluded, matches_some.
  now destruct (posixpath.relpath _ _ _).
Qed.

End Exclusion.

Lemma filter_paths_total (test : string -> outcome bool)
    (f : string -> bool) (paths : list string) :
  (forall p, In p paths -> test p = Return (f p)) ->
  filter_paths test paths = Return (filter f paths).
Proof.
  induction paths as [|p paths IH]; intros H; simpl; [reflexivity|].
  rewrite (H p (or_introl eq_refl)), IH by (intros q I; apply H; now right).
  reflexivity.
Qed.

Lemma filter_all (f : string -> bool) (paths : list string) :
  (forall p, In p paths -> f p = true) -> filter f paths = paths.
Proof.
  induction paths as [|p paths IH]; intros H; simpl; [reflexivity|].
  rewrite (H p (or_introl eq_refl)), IH by (intros q I; apply H; now right).
  reflexivity.
Qed.

(** [collect_files] returns the listed files that no pattern excludes, in
    listing order. *)
Lemma collect_files_filter (fnmatch : string -> string -> bool) (w : world)
    (directory : string) (recursive : bool)
    (ignore_patterns : option (list string)) (cands : list string) :
  directory <> "" ->
  listed_files w directory recursive = Return cands ->
  collect_files fnmatch w directory recursive ignore_patterns
  = Return (filter (fun p => negb (excluded fnmatch w directory
                                     ignore_patterns p)) cands).
Proof.
  intros N L. pose proof (listed_files_nonempty _ _ N L) as NE.
  rewrite Forall_forall in NE.
  unfold collect_files. unfold listed_files in L. destruct recursive.
  - inversion L. subst cands. apply filter_paths_total. intros p I.
    rewrite is_ignored_excluded by (apply NE; exact I). reflexivity.
  - destruct (scandir w directory) as [entries|e]; [|discriminate].
    inversion L. subst cands. apply filter_paths_total. intros p I.
    rewrite is_ignored_excluded by (apply NE; exact I). reflexivity.
Qed.

Lemma collect_files_membership (fnmatch : string -> string -> bool)
    (w : world) (directory : string) (recursive : bool)
    (ignore_patterns : option (list string)) (cands : list string) :
  directory <> "" ->
  listed_files w directory recursive = Return cands ->
  exists files,
    collect_files fnmatch w directory recursive ignore_patterns = Return files
    /\ forall p, In p files <->
                 In p cands
                 /\ ~ own_path_matches fnmatch w directory ignore_patterns p.
Proof.
  intros N L. eexists. split.
  { apply collect_files_filter with (1 := N) (2 := L). }
  intros p. rewrite filter_In, <- excluded_spec, negb_true_iff.
  now destruct (excluded fnmatch w directory ignore_patterns p).
Qed.

(** C5: among the files the listing of a directory gives (its regular
    files, or in recursive mode those of the whole tree), [collect_files]
    yields, in listing order, exactly those for which no pattern matches the
    path relative to the scan root or the basename of that path; with an
    empty or absent pattern list it yields all of them. *)
Theorem collect_files_excludes_matching (fnmatch : string -> string -> bool)
    (w : world) (directory : string) (recursive : bool)
    (ignore_patterns : option (list string)) (cands : list string) :
  directory <> "" ->
  listed_files w directory recursive = Return cands ->
  exists files,
    collect_files fnmatch w directory recursive ignore_patterns = Return files
    /\ (forall p, In p files <->
                  In p cands
                  /\ ~ own_path_matches fnmatch w directory ignore_patterns p)
    /\ files = filter (fun p => negb (excluded fnmatch w directory
                                        ignore_patterns p)) cands
    /\ (ignore_patterns = None \/ ignore_patterns = Some [] -> files = cands).
Proof.
  intros N L. eexists. split.
  { apply collect_files_filter with (1 := N) (2 := L). }
  split; [|split; [reflexivity|]].
  - intros p. rewrite filter_In, <- excluded_spec, negb_true_iff.
    now destruct (excluded fnmatch w directory ignore_patterns p).
  - intros E. apply filter_all. intros p _.
    now rewrite excluded_without_patterns.
Qed.

Lemma collect_files_excludes_matching_witness :
  exists files,
    collect_files wildcard_fnmatch test_world test_dir false (Some ["*.log"])
    = Return files
    /\ (forall p, In p files <->
                  In p ["/tmp/t/test1.py"; "/tmp/t/test2.js";
                        "/tmp/t/.gitignore"; "/tmp/t/ignored.log"]
                  /\ ~ own_path_matches wildcard_fnmatch test_world test_dir
                         (Some ["*.log"]) p)
    /\ files = filter (fun p => negb (excluded wildcard_fnmatch test_world
                                        test_dir (Some ["*.log"]) p))
                      ["/tmp/t/test1.py"; "/tmp/t/test2.js";
                       "/tmp/t/.gitignore"; "/tmp/t/ignored.log"]
    /\ (Some ["*.log"] = None \/ Some ["*.log"] = Some [] ->
        files = ["/tmp/t/test1.py"; "/tmp/t/test2.js"; "/tmp/t/.gitignore";
                 "/tmp/t/ignored.log"]).
Proof.
  apply (@collect_files_excludes_matching wildcard_fnmatch test_world test_dir
           false (Some ["*.log"])).
  - discriminate.
  - reflexivity.
Defined.

Example collect_files_fixture :
  collect_files wildcard_fnmatch test_world test_dir false (Some ["*.log"])
  = Return ["/tmp/t/test1.py"; "/tmp/t/test2.js"; "/tmp/t/.gitignore"].
Proof. reflexivity. Qed.

(** Called as the unit test calls it, without patterns, [collect_files]
    yields the log file too. *)
Example collect_files_fixture_without_patterns :
  collect_files wildcard_fnmatch test_world test_dir false None
  = Return ["/tmp/t/test1.py"; "/tmp/t/test2.js"; "/tmp/t/.gitignore";
            "/tmp/t/ignored.log"].
Proof. reflexivity. Qed.

(** ** The script and the output file *)

(** What the filter of line 201 guarantees: whatever the directory, the
    patterns and the flags, the candidate list handed to the selection
    holds neither the path of the running script nor the output path as it
    is spelled, nor any path with the script's basename or with the same
    [os.path.abspath] as the output file; no pattern is needed for that. *)
Theorem candidates_exclude_self (fnmatch : string -> string -> bool)
    (w : world) (output_file directory : string)
    (recursive ignore_gitignore : bool) (files : list string) :
  candidate_files fnmatch w output_file directory recursive ignore_gitignore
  = Return files ->
  ~ In (script_file w) files
  /\ ~ In output_file files
  /\ forall f, In f files ->
       posixpath.basename f <> posixpath.basename (script_file w)
       /\ posixpath.abspath (getcwd w) f
          <> posixpath.abspath (getcwd w) output_file.
Proof.
  unfold candidate_files. intros C.
  assert (H : forall f, In f files -> not_self w output_file f = true).
  { destruct (if ignore_gitignore then _ else _) as [ignore_patterns|e];
      [|discriminate].
    destruct (collect_files _ _ _ _ _) as [found|e]; [|discriminate].
    inversion C. intros f I. now apply filter_In in I. }
  assert (K : forall f, In f files ->
                posixpath.basename f <> posixpath.basename (script_file w)
                /\ posixpath.abspath (getcwd w) f
                   <> posixpath.abspath (getcwd w) output_file).
  { intros f I. specialize (H f I). unfold not_self in H.
    apply andb_true_iff in H. destruct H as [B A].
    apply negb_true_iff in B, A. now rewrite String.eqb_neq in B, A. }
  split; [|split; [|exact K]].
  - intros I. now destruct (K _ I).
  - intros I. now destruct (K _ I).
Qed.

Lemma candidates_exclude_self_witness :
  ~ In (script_file self_world) ["./main.py"]
  /\ ~ In "combined_files.md" ["./main.py"]
  /\ forall f, In f ["./main.py"] ->
       posixpath.basename f <> posixpath.basename (script_file self_world)
       /\ posixpath.abspath (getcwd self_world) f
          <> posixpath.abspath (getcwd self_world) "combined_files.md".
Proof.
  apply (@candidates_exclude_self wildcard_fnmatch self_world
           "combined_files.md" "." false false ["./main.py"]).
  reflexivity.
Defined.

(** C4: the claim says that the candidate list never contains the output
    file.  Run in [/proj] on the directory spelled [//proj] with the output
    file [out.md], the program keeps [//proj/out.md] as a candidate: the
    filter of line 201 compares [os.path.abspath] of the two paths, which
    keeps the two leading slashes of the one and not of the other, though
    both lead to the same file. *)
Theorem candidates_hold_output_file (fnmatch : string -> string -> bool)
    (big text : string) :
  candidate_files fnmatch (slash_world big text) "out.md" "//proj" false true
  = Return ["//proj/big.txt"; "//proj/out.md"]
  /\ posixpath.abspath "/proj" "//proj/out.md" = "//proj/out.md"
  /\ posixpath.abspath "/proj" "out.md" = "/proj/out.md"
  /\ same_location "/proj" "//proj/out.md" "out.md".
Proof. repeat split. Qed.

(** Without the filter of line 201 both files would be candidates. *)
Example self_world_listing :
  collect_files wildcard_fnmatch self_world "." false (Some [])
  = Return ["./code2md.py"; "./combined_files.md"; "./main.py"].
Proof. reflexivity. Qed.

(** ** Sub-directories *)

(** The walk reaches every file of the tree. *)
Lemma file_under_walked (top : string) (entries : list node) (p : string) :
  file_under top entries p ->
  In p (files_of_walk
          ((top,
            map node_name (filter is_dir entries),
            map node_name (filter (fun c => negb (is_dir c)) entries))
           :: flat_map (walk_node top) entries)).
Proof.
  induction 1 as [top entries name I | top entries d sub p I U IH];
    rewrite files_of_walk_cons; apply in_or_app.
  - left. apply in_map. change name with (node_name (File name)).
    apply in_map. now apply filter_In.
  - right. unfold files_of_walk. apply in_flat_map.
    unfold files_of_walk in IH. apply in_flat_map in IH.
    destruct IH as [triple [T P]]. exists triple. split; [|exact P].
    apply in_flat_map. exists (Dir d sub). split; [exact I|exact T].
Qed.

(** With the pattern [build] the walk still yields the files of the
    directory [build]. *)
Example build_pattern_keeps_files :
  collect_files wildcard_fnmatch build_world "." true (Some ["build"])
  = Return ["./a.py"; "./build/x.py"; "./build/deep/y.py"].
Proof. reflexivity. Qed.

(** A pattern that matches the files themselves does exclude them. *)
Example py_pattern_excludes_files :
  collect_files wildcard_fnmatch build_world "." true (Some ["build/*"])
  = Return ["./a.py"].
Proof. reflexivity. Qed.

(** ** The relative path of a walked file *)

Lemma contains_false_cons (c d : ascii) (s : string) :
  contains c (String d s) = false ->
  Ascii.eqb d c = false /\ contains c s = false.
Proof. simpl. intros H. now apply orb_false_iff in H. Qed.

(** No piece of a split holds the separator. *)
Lemma split_pieces_free (c : ascii) (s x : string) :
  In x (split c s) -> contains c x = false.
Proof.
  revert x. induction s as [|d s IH]; intros x; simpl.
  - intros [<-|[]]. reflexivity.
  - destruct (Ascii.eqb d c) eqn:E.
    + intros [<-|I]; [reflexivity | now apply IH].
    + pose proof (split_not_nil c s) as N.
      destruct (split c s) as [|p ps]; [contradiction|].
      intros [<-|I].
      * simpl. rewrite E. apply IH. now left.
      * apply IH. now right.
Qed.

(** Joining pieces without separator and splitting again gives them
    back. *)
Lemma split_join (pieces : list string) :
  pieces <> [] ->
  Forall (fun x => contains posixpath.sep x = false) pieces ->
  split posixpath.sep (PyStr.join "/" pieces) = pieces.
Proof.
  induction pieces as [|p [|q rest] IH]; intros N F.
  - contradiction.
  - simpl. apply split_no_sep. now inversion F.
  - change (PyStr.join "/" (p :: q :: rest))
      with (p +++ String posixpath.sep (PyStr.join "/" (q :: rest))).
    inversion F as [|? ? Fp Fr]. subst.
    rewrite split_app, (split_no_sep _ _ Fp), IH by (easy || assumption).
    reflexivity.
Qed.

Lemma split_leading_slashes (n : nat) (s : string) :
  split posixpath.sep (posixpath.repeat_string n "/" +++ s)
  = repeat "" n ++ split posixpath.sep s.
Proof.
  induction n as [|n IH]; simpl; [reflexivity|]. now rewrite IH.
Qed.

Lemma filter_repeat_empty (n : nat) (l : list string) :
  filter nonempty_str (repeat "" n ++ l) = filter nonempty_str l.
Proof. induction n as [|n IH]; simpl; [reflexivity | exact IH]. Qed.

Lemma Forall_removelast (A : Type) (P : A -> Prop) (l : list A) :
  Forall P l -> Forall P (removelast l).
Proof.
  induction 1 as [|x l Px Pl IH]; simpl; [constructor|].
  destruct l; [constructor | now constructor].
Qed.

Lemma normpath_loop_kept (slashes : nat) (pieces new_comps : list string) :
  Forall kept_component new_comps ->
  Forall (fun x => contains posixpath.sep x = false) pieces ->
  Forall kept_component
         (fold_left (posixpath.normpath_step slashes) pieces new_comps).
Proof.
  revert new_comps.
  induction pieces as [|comp pieces IH]; intros new_comps K F; simpl;
    [exact K|].
  inversion F as [|? ? Fc Fp]. subst. apply IH; [|exact Fp].
  unfold posixpath.normpath_step.
  destruct (String.eqb_spec comp "") as [->|NE]; simpl; [exact K|].
  destruct (String.eqb comp "."); [exact K|].
  destruct (_ || _).
  - apply Forall_app. split; [exact K|]. constructor; [|constructor].
    split; [|exact Fc]. unfold nonempty_str.
    now destruct (String.eqb_spec comp "").
  - now apply Forall_removelast.
Qed.

Lemma filter_kept (l : list string) :
  Forall kept_component l -> filter nonempty_str l = l.
Proof.
  induction 1 as [|x l [Nx _] _ IH]; simpl; [reflexivity|].
  now rewrite Nx, IH.
Qed.

(** The components of a normalised absolute path are what the loop of
    [normpath] leaves. *)
Lemma components_normpath (path : string) :
  posixpath.isabs path = true ->
  components (posixpath.normpath path)
  = fold_left (posixpath.normpath_step (posixpath.initial_slashes path))
              (split posixpath.sep path) [].
Proof.
  intros A.
  assert (K : Forall kept_component
                (fold_left
                   (posixpath.normpath_step (posixpath.initial_slashes path))
                   (split posixpath.sep path) [])).
  { apply normpath_loop_kept; [constructor|]. apply Forall_forall.
    intros x. apply split_pieces_free. }
  unfold posixpath.normpath.
  set (comps := fold_left _ _ _) in *.
  destruct path as [|c path]; [discriminate|].
  cbn [String.eqb].
  assert (Sl : exists n, posixpath.initial_slashes (String c path) = S n).
  { unfold posixpath.initial_slashes. unfold posixpath.isabs in A. rewrite A.
    destruct (_ && _); eauto. }
  destruct Sl as [n Sl]. rewrite Sl.
  change (posixpath.repeat_string (S n) "/" +++ PyStr.join "/" comps)
    with (String "/" (posixpath.repeat_string n "/" +++ PyStr.join "/" comps)).
  cbn [String.eqb]. unfold components.
  change (String "/" (posixpath.repeat_string n "/" +++ PyStr.join "/" comps))
    with (posixpath.repeat_string (S n) "/" +++ PyStr.join "/" comps).
  rewrite split_leading_slashes, filter_repeat_empty.
  destruct comps as [|x comps'] eqn:E; [reflexivity|].
  rewrite split_join; [now apply filter_kept | discriminate |].
  apply Forall_forall. intros y I. rewrite Forall_forall in K.
  now destruct (K y I).
Qed.

(** With a leading slash the loop of [normpath] does not depend on the
    number of slashes kept. *)
Lemma normpath_loop_absolute (s s' : nat) (pieces new_comps : list string) :
  s <> 0 -> s' <> 0 ->
  fold_left (posixpath.normpath_step s) pieces new_comps
  = fold_left (posixpath.normpath_step s') pieces new_comps.
Proof.
  intros N N'. revert new_comps.
  induction pieces as [|comp pieces IH]; intros new_comps; simpl;
    [reflexivity|].
  rewrite IH. f_equal. unfold posixpath.normpath_step.
  destruct s; [contradiction|]. destruct s'; [contradiction|]. reflexivity.
Qed.

Lemma plain_name_spec (name : string) :
  plain_name name = true ->
  name <> "" /\ contains posixpath.sep name = false
  /\ name <> "." /\ name <> "..".
Proof.
  unfold plain_name, nonempty_str. intros H.
  apply andb_true_iff in H. destruct H as [H D2].
  apply andb_true_iff in H. destruct H as [H D1].
  apply andb_true_iff in H. destruct H as [NE C].
  apply negb_true_iff in NE, C, D1, D2.
  rewrite String.eqb_neq in NE, D1, D2. auto.
Qed.

(** The loop of [normpath] appends a plain name. *)
Lemma normpath_step_plain (s : nat) (new_comps : list string) (name : string) :
  plain_name name = true ->
  posixpath.normpath_step s new_comps name = new_comps ++ [name].
Proof.
  intros P. destruct (plain_name_spec _ P) as [NE [_ [D1 D2]]].
  unfold posixpath.normpath_step.
  apply String.eqb_neq in NE, D1, D2. now rewrite NE, D1, D2.
Qed.

Lemma startswith_slash_plain (name : string) :
  plain_name name = true -> startswith name "/" = false.
Proof.
  intros P. destruct (plain_name_spec _ P) as [NE [C _]].
  destruct name as [|c name]; [contradiction|].
  apply contains_false_cons in C. destruct C as [E _].
  simpl. unfold posixpath.sep in E. now rewrite E.
Qed.

(** A path that ends with a slash has an empty last piece, which a
    suffix without slash replaces. *)
Lemma split_trailing_sep (c : ascii) (x : string) :
  endswith_char x c = true ->
  exists p pre,
    split c x = (p :: pre) ++ [""]
    /\ forall y, contains c y = false ->
                 split c (x +++ y) = (p :: pre) ++ [y].
Proof.
  induction x as [|a x IH]; [discriminate|].
  destruct x as [|b x'].
  - unfold endswith_char. simpl. intros E. apply Ascii.eqb_eq in E. subst a.
    exists "", []. simpl. rewrite Ascii.eqb_refl. split; [reflexivity|].
    intros y Y. now rewrite (split_no_sep _ _ Y).
  - intros E. change (endswith_char (String b x') c = true) in E.
    destruct (IH E) as [p [pre [S1 S2]]]. clear IH.
    cbn [split append]. cbn [split append] in S1, S2.
    destruct (Ascii.eqb a c).
    + exists "", (p :: pre). rewrite S1. split; [reflexivity|].
      intros y Y. now rewrite (S2 y Y).
    + exists (String a p), pre. rewrite S1. split; [reflexivity|].
      intros y Y. now rewrite (S2 y Y).
Qed.

(** Joining a plain name to a non-empty path adds one component to what
    the loop of [normpath] leaves. *)
Lemma normpath_loop_child (s : nat) (x name : string) :
  x <> "" -> plain_name name = true ->
  fold_left (posixpath.normpath_step s)
            (split posixpath.sep (posixpath.join x name)) []
  = fold_left (posixpath.normpath_step s) (split posixpath.sep x) []
    ++ [name].
Proof.
  intros NE P. destruct (plain_name_spec _ P) as [_ [C _]].
  unfold posixpath.join. rewrite (startswith_slash_plain _ P).
  apply String.eqb_neq in NE. rewrite NE. cbn [orb].
  destruct (endswith_char x posixpath.sep) eqn:E.
  - destruct (split_trailing_sep _ _ E) as [p [pre [S1 S2]]].
    rewrite S1, (S2 _ C), !fold_left_app. cbn [fold_left].
    rewrite normpath_step_plain by exact P. reflexivity.
  - change (x +++ "/" +++ name) with (x +++ String posixpath.sep name).
    rewrite split_app, (split_no_sep _ _ C), fold_left_app. cbn [fold_left].
    rewrite normpath_step_plain by exact P. reflexivity.
Qed.

Lemma last_char_app (a x : string) :
  x <> "" -> last_char (a +++ x) = last_char x.
Proof.
  intros N. induction a as [|c a IH]; [reflexivity|].
  cbn [append last_char]. rewrite <- IH.
  destruct (a +++ x) eqn:E; [|reflexivity].
  destruct a; destruct x; simpl in E; congruence.
Qed.

Lemma endswith_char_app (a x : string) (c : ascii) :
  x <> "" -> endswith_char (a +++ x) c = endswith_char x c.
Proof. intros N. unfold endswith_char. now rewrite last_char_app. Qed.

Lemma append_nonempty (a x : string) : x <> "" -> a +++ x <> "".
Proof. destruct a; simpl; [auto | discriminate]. Qed.

Lemma startswith_app (a x p : string) :
  startswith a p = true -> startswith (a +++ x) p = true.
Proof.
  revert a. induction p as [|c p IH]; intros a; [reflexivity|].
  destruct a as [|d a]; [discriminate|]. simpl.
  intros H. apply andb_true_iff in H. destruct H as [-> H]. now apply IH.
Qed.

(** What [join] appends to a non-empty path for a plain name. *)
Lemma join_plain (x name : string) :
  x <> "" -> plain_name name = true ->
  posixpath.join x name
  = x +++ (if endswith_char x posixpath.sep then name else "/" +++ name).
Proof.
  intros NE P. unfold posixpath.join.
  rewrite (startswith_slash_plain _ P).
  apply String.eqb_neq in NE. rewrite NE. cbn [orb].
  now destruct (endswith_char x posixpath.sep).
Qed.

Lemma anchored_absolute (cwd path : string) :
  posixpath.isabs cwd = true -> posixpath.isabs (anchored cwd path) = true.
Proof.
  intros A. unfold anchored.
  destruct (posixpath.isabs path) eqn:E; [exact E|].
  unfold posixpath.join. unfold posixpath.isabs in E. rewrite E.
  destruct (_ || _); now apply startswith_app.
Qed.

Lemma isabs_nonempty (path : string) :
  posixpath.isabs path = true -> path <> "".
Proof. now destruct path. Qed.

Lemma anchored_child (cwd x name : string) :
  posixpath.isabs cwd = true -> x <> "" -> plain_name name = true ->
  anchored cwd (posixpath.join x name)
  = posixpath.join (anchored cwd x) name.
Proof.
  intros A NE P. unfold anchored.
  rewrite (@join_plain x name NE P).
  destruct (posixpath.isabs x) eqn:E.
  - unfold posixpath.isabs in *. rewrite (@startswith_app x _ "/" E).
    now rewrite (@join_plain x name NE P).
  - assert (E' : posixpath.isabs
                   (x +++ (if endswith_char x posixpath.sep then name
                           else "/" +++ name)) = false).
    { destruct x as [|c x]; [contradiction|]. exact E. }
    rewrite E'. unfold posixpath.join at 1 3.
    unfold posixpath.isabs in E, E'. rewrite E, E'.
    assert (J : forall c, c <> "" ->
                  posixpath.join (c +++ x) name
                  = c +++ x +++ (if endswith_char x posixpath.sep then name
                                 else "/" +++ name)).
    { intros c _. rewrite join_plain by (try apply append_nonempty; assumption).
      rewrite endswith_char_app by assumption. now rewrite append_assoc. }
    destruct (_ || _).
    + symmetry. apply J. now apply isabs_nonempty.
    + rewrite <- !append_assoc. symmetry.
      rewrite (J (cwd +++ "/")) by now destruct cwd.
      now rewrite !append_assoc.
Qed.

(** A plain name joined to a path adds one component to its absolute
    form. *)
Lemma components_abspath_child (cwd x name : string) :
  posixpath.isabs cwd = true -> x <> "" -> plain_name name = true ->
  components (posixpath.abspath cwd (posixpath.join x name))
  = components (posixpath.abspath cwd x) ++ [name].
Proof.
  intros A NE P.
  change (posixpath.abspath cwd (posixpath.join x name))
    with (posixpath.normpath (anchored cwd (posixpath.join x name))).
  change (posixpath.abspath cwd x) with (posixpath.normpath (anchored cwd x)).
  pose proof (@anchored_absolute cwd x A) as Ax.
  rewrite (@anchored_child cwd x name A NE P).
  assert (Aj : posixpath.isabs (posixpath.join (anchored cwd x) name) = true).
  { rewrite join_plain by (try apply isabs_nonempty; assumption).
    now apply startswith_app. }
  rewrite !components_normpath by assumption.
  rewrite normpath_loop_absolute
    with (s' := posixpath.initial_slashes (anchored cwd x)).
  - apply normpath_loop_child; [now apply isabs_nonempty | exact P].
  - unfold posixpath.initial_slashes. unfold posixpath.isabs in Aj.
    rewrite Aj. now destruct (_ && _).
  - unfold posixpath.initial_slashes. unfold posixpath.isabs in Ax.
    rewrite Ax. now destruct (_ && _).
Qed.

Lemma fold_join_nonempty (dirs : list string) (top : string) :
  top <> "" -> fold_left posixpath.join dirs top <> "".
Proof.
  revert top. induction dirs as [|d dirs IH]; intros top N; simpl; [exact N|].
  apply IH. now apply join_nonempty.
Qed.

(** Going down a chain of plain directory names adds them to the
    components. *)
Lemma components_abspath_chain (cwd top : string) (dirs : list string) :
  posixpath.isabs cwd = true -> top <> "" ->
  Forall (fun d => plain_name d = true) dirs ->
  components (posixpath.abspath cwd (fold_left posixpath.join dirs top))
  = components (posixpath.abspath cwd top) ++ dirs.
Proof.
  intros A N F. revert top N.
  induction F as [|d dirs P F IH]; intros top N; simpl.
  - now rewrite app_nil_r.
  - rewrite IH by now apply join_nonempty.
    rewrite components_abspath_child by assumption.
    now rewrite <- app_assoc.
Qed.

Lemma commonprefix_length_app (xs ys : list string) :
  posixpath.commonprefix_length xs (xs ++ ys) = length xs.
Proof.
  induction xs as [|x xs IH]; simpl; [reflexivity|].
  now rewrite String.eqb_refl, IH.
Qed.

Lemma skipn_length_app (xs ys : list string) :
  skipn (length xs) (xs ++ ys) = ys.
Proof. induction xs as [|x xs IH]; simpl; [reflexivity | exact IH]. Qed.

Lemma contains_endswith (c : ascii) (x : string) :
  contains c x = false -> endswith_char x c = false.
Proof.
  unfold endswith_char. induction x as [|d x IH]; [reflexivity|].
  intros C. apply contains_false_cons in C. destruct C as [E C].
  destruct x as [|d' x']; [exact E | exact (IH C)].
Qed.

(** [os.path.join] over plain names puts one slash between them. *)
Lemma fold_join_plain (names : list string) (a : string) :
  a <> "" -> endswith_char a posixpath.sep = false ->
  Forall (fun d => plain_name d = true) names ->
  fold_left posixpath.join names a = PyStr.join "/" (a :: names).
Proof.
  intros N E F. revert a N E.
  induction F as [|d names P F IH]; intros a N E; [reflexivity|].
  destruct (plain_name_spec _ P) as [Nd [Cd _]].
  cbn [fold_left]. rewrite join_plain by assumption. rewrite E.
  rewrite IH.
  - change (PyStr.join "/" (a :: d :: names))
      with (a +++ "/" +++ PyStr.join "/" (d :: names)).
    destruct names; simpl; rewrite ?append_assoc; reflexivity.
  - apply append_nonempty. discriminate.
  - rewrite endswith_char_app by discriminate.
    change ("/" +++ d) with (String "/" d).
    unfold endswith_char. cbn [last_char].
    destruct d as [|c d]; [contradiction|].
    now apply (contains_endswith posixpath.sep (String c d)).
Qed.

Lemma join_all_plain (names : list string) :
  Forall (fun d => plain_name d = true) names ->
  posixpath.join_all names = PyStr.join "/" names.
Proof.
  intros F. destruct F as [|d names P F]; [reflexivity|].
  destruct (plain_name_spec _ P) as [Nd [Cd _]].
  apply fold_join_plain; [exact Nd | now apply contains_endswith | exact F].
Qed.

(** The relative path of a file reached from the scan root through plain
    names is these names, one slash between them. *)
Lemma relpath_path_of (cwd directory : string) (dirs : list string)
    (name : string) :
  posixpath.isabs cwd = true -> directory <> "" ->
  Forall (fun d => plain_name d = true) dirs ->
  plain_name name = true ->
  posixpath.relpath cwd (path_of directory dirs name) directory
  = Some (PyStr.join "/" (dirs ++ [name])).
Proof.
  intros A N F P. unfold posixpath.relpath, path_of.
  assert (NR : fold_left posixpath.join dirs directory <> "")
    by now apply fold_join_nonempty.
  pose proof (@join_nonempty _ name NR) as NP.
  apply String.eqb_neq in NP. rewrite NP.
  fold (components (posixpath.abspath cwd directory)).
  fold (components (posixpath.abspath cwd
          (posixpath.join (fold_left posixpath.join dirs directory) name))).
  rewrite components_abspath_child, components_abspath_chain by assumption.
  rewrite <- app_assoc, commonprefix_length_app, Nat.sub_diag,
    skipn_length_app.
  cbn [repeat app].
  rewrite join_all_plain
    by (apply Forall_app; split; [exact F | now constructor]).
  now destruct dirs.
Qed.

Lemma contains_app_sep (c : ascii) (a b : string) :
  contains c (a +++ String c b) = true.
Proof.
  induction a as [|d a IH]; simpl.
  - now rewrite Ascii.eqb_refl.
  - rewrite IH. apply orb_true_r.
Qed.

Lemma basename_free (f : string) :
  contains posixpath.sep f = false -> posixpath.basename f = f.
Proof.
  destruct f as [|c f]; [reflexivity|]. intros C.
  apply contains_false_cons in C. destruct C as [E C].
  cbn [posixpath.basename]. now rewrite C, E.
Qed.

(** The basename is what follows the last slash. *)
Lemma basename_after_sep (a f : string) :
  contains posixpath.sep f = false ->
  posixpath.basename (a +++ String posixpath.sep f) = f.
Proof.
  intros C. induction a as [|c a IH]; cbn [append posixpath.basename].
  - now rewrite C, Ascii.eqb_refl.
  - now rewrite contains_app_sep.
Qed.

Lemma join_snoc (sep : string) (parts : list string) (x : string) :
  parts <> [] ->
  PyStr.join sep (parts ++ [x]) = PyStr.join sep parts +++ sep +++ x.
Proof.
  induction parts as [|p [|q parts] IH]; intros N.
  - contradiction.
  - reflexivity.
  - change (PyStr.join sep ((p :: q :: parts) ++ [x]))
      with (p +++ sep +++ PyStr.join sep ((q :: parts) ++ [x])).
    rewrite IH by discriminate.
    change (PyStr.join sep (p :: q :: parts))
      with (p +++ sep +++ PyStr.join sep (q :: parts)).
    now rewrite !append_assoc.
Qed.

Lemma basename_joined (dirs : list string) (name : string) :
  contains posixpath.sep name = false ->
  posixpath.basename (PyStr.join "/" (dirs ++ [name])) = name.
Proof.
  intros C. destruct dirs as [|d dirs].
  - now apply basename_free.
  - rewrite join_snoc by discriminate.
    now apply (basename_after_sep (PyStr.join "/" (d :: dirs))).
Qed.

(** In a tree of plain names a located file has a plain name below plain
    directory names. *)
Lemma located_plain (entries : list node) (dirs : list string)
    (name : string) :
  located entries dirs name ->
  forallb plain_tree entries = true ->
  Forall (fun d => plain_name d = true) dirs /\ plain_name name = true.
Proof.
  induction 1 as [entries name I | entries d sub dirs name I L IH];
    intros W; rewrite forallb_forall in W.
  - split; [constructor | exact (W _ I)].
  - specialize (W _ I). cbn [plain_tree] in W.
    apply andb_true_iff in W. destruct W as [Pd Ws].
    destruct (IH Ws) as [F Pn]. split; [now constructor | exact Pn].
Qed.

Lemma located_file_under (top : string) (entries : list node)
    (dirs : list string) (name : string) :
  located entries dirs name ->
  file_under top entries (path_of top dirs name).
Proof.
  intros L. revert top.
  induction L as [entries name I | entries d sub dirs name I L IH];
    intros top.
  - now apply file_here.
  - apply file_below with (d := d) (sub := sub); [exact I|]. apply IH.
Qed.

(** The walk reaches every located file. *)
Lemma located_walked (w : world) (directory : string)
    (entries : list node) (dirs : list string) (name : string) :
  scandir w directory = inl entries ->
  located entries dirs name ->
  In (path_of directory dirs name) (walked_files w directory).
Proof.
  intros S L. unfold walked_files, walk. rewrite S.
  apply file_under_walked. now apply located_file_under.
Qed.

(** ** What the exclusion check tests *)

Section Tested.

Variable fnmatch : string -> string -> bool.
Variable w : world.
Variable directory : string.
Variable entries : list node.

Hypothesis cwd_absolute : posixpath.isabs (getcwd w) = true.
Hypothesis directory_nonempty : directory <> "".
Hypothesis entries_plain : forallb plain_tree entries = true.

(** For a file of the tree the check tests the names from the scan root
    down to the file, joined by slashes, and the name of the file. *)
Lemma is_ignored_located (patterns dirs : list string) (name : string) :
  located entries dirs name ->
  is_ignored fnmatch w directory (Some patterns)
    (path_of directory dirs name)
  = Return (existsb (fun pattern =>
                       fnmatch (PyStr.join "/" (dirs ++ [name])) pattern
                       || fnmatch name pattern) patterns).
Proof.
  intros L. destruct (located_plain L entries_plain) as [F P].
  destruct (plain_name_spec _ P) as [_ [C _]].
  unfold is_ignored.
  rewrite relpath_path_of, basename_joined by assumption.
  now destruct patterns.
Qed.

Lemma own_path_matches_located (patterns dirs : list string) (name : string) :
  located entries dirs name ->
  own_path_matches fnmatch w directory (Some patterns)
    (path_of directory dirs name)
  <-> exists pattern,
        In pattern patterns
        /\ (fnmatch (PyStr.join "/" (dirs ++ [name])) pattern = true
            \/ fnmatch name pattern = true).
Proof.
  intros L. destruct (located_plain L entries_plain) as [F P].
  destruct (plain_name_spec _ P) as [_ [C _]].
  unfold own_path_matches. split.
  - intros [patterns' [pattern [rel_path [E [I [R M]]]]]].
    inversion E. subst patterns'.
    rewrite relpath_path_of in R by assumption. inversion R. subst rel_path.
    rewrite basename_joined in M by assumption. eauto.
  - intros [pattern [I M]].
    exists patterns, pattern, (PyStr.join "/" (dirs ++ [name])).
    rewrite relpath_path_of, basename_joined by assumption. auto.
Qed.

End Tested.

(** In recursive mode a file of the tree is yielded exactly when no pattern
    matches its relative path or its name. *)
Lemma collect_files_located (fnmatch : string -> string -> bool) (w : world)
    (directory : string) (patterns : list string) (entries : list node)
    (dirs : list string) (name : string) :
  posixpath.isabs (getcwd w) = true ->
  directory <> "" ->
  scandir w directory = inl entries ->
  forallb plain_tree entries = true ->
  located entries dirs name ->
  exists files,
    collect_files fnmatch w directory true (Some patterns) = Return files
    /\ (In (path_of directory dirs name) files <->
        forall pattern, In pattern patterns ->
          fnmatch (PyStr.join "/" (dirs ++ [name])) pattern = false
          /\ fnmatch name pattern = false).
Proof.
  intros A N S W L.
  assert (C : listed_files w directory true
              = Return (walked_files w directory)) by reflexivity.
  destruct (@collect_files_membership fnmatch w directory true (Some patterns)
              _ N C) as [files [R M]].
  exists files. split; [exact R|]. rewrite M.
  rewrite (@own_path_matches_located fnmatch w directory entries A N W
             patterns dirs name L).
  pose proof (@located_walked w directory entries dirs name S L) as In_walk.
  split.
  - intros [_ X] pattern Ip.
    destruct (fnmatch (PyStr.join "/" (dirs ++ [name])) pattern) eqn:E1;
      [exfalso; apply X; eauto|].
    destruct (fnmatch name pattern) eqn:E2; [exfalso; apply X; eauto|].
    auto.
  - intros X. split; [eauto|].
    intros [pattern [Ip [E|E]]]; destruct (X pattern Ip) as [E1 E2];
      congruence.
Qed.

Lemma append_eq_self (a x : string) : a +++ x = a -> x = "".
Proof.
  induction a as [|c a IH]; simpl; [auto|]. intros E. inversion E. auto.
Qed.

(** A pattern without [*] and [?] matches itself only. *)
Lemma wildcard_literal (pat name : string) :
  literal_pattern pat = true ->
  wildcard_fnmatch name pat = String.eqb name pat.
Proof.
  unfold wildcard_fnmatch, literal_pattern. revert name.
  induction pat as [|c pat IH]; intros name L.
  - destruct name; reflexivity.
  - cbn [contains] in L. apply andb_true_iff in L. destruct L as [L1 L2].
    apply negb_true_iff, orb_false_iff in L1, L2.
    destruct L1 as [E1 C1], L2 as [E2 C2].
    cbn [wildcard]. rewrite E1.
    destruct name as [|x name]; [reflexivity|].
    rewrite E2. cbn [orb String.eqb]. rewrite (Ascii.eqb_sym x c).
    rewrite IH by (now rewrite C1, C2). reflexivity.
Qed.

(** When the only pattern is the name [d] of a sub-directory and the
    matcher takes it literally, the files below [d] that are excluded are
    those that are themselves named [d]. *)
Lemma directory_pattern_literal (fnmatch : string -> string -> bool)
    (w : world) (directory : string) (entries : list node)
    (d : string) (sub : list node) (dirs : list string) (name : string) :
  posixpath.isabs (getcwd w) = true ->
  directory <> "" ->
  scandir w directory = inl entries ->
  forallb plain_tree entries = true ->
  In (Dir d sub) entries ->
  located sub dirs name ->
  (forall s, fnmatch s d = String.eqb s d) ->
  exists files,
    collect_files fnmatch w directory true (Some [d]) = Return files
    /\ (In (path_of directory (d :: dirs) name) files <-> name <> d).
Proof.
  intros A N S W I L Lit.
  assert (L' : located entries (d :: dirs) name)
    by now apply located_below with (sub := sub).
  destruct (@collect_files_located fnmatch w directory [d] entries
              (d :: dirs) name A N S W L') as [files [R M]].
  exists files. split; [exact R|]. rewrite M.
  assert (J : PyStr.join "/" ((d :: dirs) ++ [name]) <> d).
  { change ((d :: dirs) ++ [name]) with ([d] ++ (dirs ++ [name])).
    destruct (dirs ++ [name]) as [|x xs] eqn:E.
    - now destruct dirs.
    - change (PyStr.join "/" ([d] ++ x :: xs))
        with (d +++ "/" +++ PyStr.join "/" (x :: xs)).
      intros H. apply append_eq_self in H. discriminate. }
  split.
  - intros X E. destruct (X d (or_introl eq_refl)) as [_ X2].
    rewrite Lit, E, String.eqb_refl in X2. discriminate.
  - intros X pattern [<-|[]]. rewrite !Lit. split; now apply String.eqb_neq.
Qed.

(** C10: in recursive mode a file below a sub-directory [d], at any depth,
    is yielded exactly when no pattern matches its path relative to the
    scan root, which begins with [d/], or its own name.  The name [d]
    itself is never tested, so a pattern equal to it does not exclude the
    files of the sub-directory. *)
Theorem subdirectory_name_excludes_nothing
    (fnmatch : string -> string -> bool) (w : world) (directory : string)
    (patterns : list string) (entries : list node)
    (d : string) (sub : list node) (dirs : list string) (name : string) :
  posixpath.isabs (getcwd w) = true ->
  directory <> "" ->
  scandir w directory = inl entries ->
  forallb plain_tree entries = true ->
  In (Dir d sub) entries ->
  located sub dirs name ->
  exists files,
    collect_files fnmatch w directory true (Some patterns) = Return files
    /\ (In (path_of directory (d :: dirs) name) files <->
        forall pattern, In pattern patterns ->
          fnmatch (PyStr.join "/" ((d :: dirs) ++ [name])) pattern = false
          /\ fnmatch name pattern = false).
Proof.
  intros A N S W I L.
  apply collect_files_located with (entries := entries); try assumption.
  now apply located_below with (sub := sub).
Qed.

Lemma subdirectory_name_excludes_nothing_witness :
  exists files,
    collect_files wildcard_fnmatch build_world "." true (Some ["build"])
    = Return files
    /\ (In (path_of "." ["build"; "deep"] "y.py") files <->
        forall pattern, In pattern ["build"] ->
          wildcard_fnmatch (PyStr.join "/" (["build"; "deep"] ++ ["y.py"]))
            pattern = false
          /\ wildcard_fnmatch "y.py" pattern = false).
Proof.
  apply (@subdirectory_name_excludes_nothing wildcard_fnmatch build_world "."
           ["build"] build_tree "build"
           [File "x.py"; Dir "deep" [File "y.py"]] ["deep"] "y.py").
  - reflexivity.
  - discriminate.
  - reflexivity.
  - reflexivity.
  - simpl. right. left. reflexivity.
  - apply located_below with (sub := [File "y.py"]).
    + simpl. right. left. reflexivity.
    + apply located_here. simpl. left. reflexivity.
Defined.

Lemma endswith_char_inv (x : string) (c : ascii) :
  endswith_char x c = true -> exists x', x = x' +++ String c "".
Proof.
  induction x as [|a x IH]; [discriminate|].
  destruct x as [|b x'].
  - unfold endswith_char. simpl. intros E. apply Ascii.eqb_eq in E. subst a.
    now exists "".
  - intros E. change (endswith_char (String b x') c = true) in E.
    destruct (IH E) as [y ->]. now exists (String a y).
Qed.

(** The basename of a candidate is the name of the file, which is also
    the basename of its relative path. *)
Lemma basename_path_of (top : string) (dirs : list string) (name : string) :
  top <> "" -> plain_name name = true ->
  posixpath.basename (path_of top dirs name) = name.
Proof.
  intros N P. destruct (plain_name_spec _ P) as [_ [C _]].
  unfold path_of. rewrite join_plain
    by (try apply fold_join_nonempty; assumption).
  destruct (endswith_char (fold_left posixpath.join dirs top) posixpath.sep)
    eqn:E.
  - destruct (endswith_char_inv _ _ E) as [x' ->].
    rewrite append_assoc. now apply basename_after_sep.
  - change (fold_left posixpath.join dirs top +++ "/" +++ name)
      with (fold_left posixpath.join dirs top +++ String posixpath.sep name).
    now apply basename_after_sep.
Qed.

(** In the tree with the directory [build], the pattern [build] excludes
    no file; it would exclude a file named [build]. *)
Example build_pattern_literal :
  exists files,
    collect_files wildcard_fnmatch build_world "." true (Some ["build"])
    = Return files
    /\ (In (path_of "." ["build"; "deep"] "y.py") files <-> "y.py" <> "build").
Proof.
  apply (@directory_pattern_literal wildcard_fnmatch build_world "."
           build_tree "build" [File "x.py"; Dir "deep" [File "y.py"]]
           ["deep"] "y.py").
  - reflexivity.
  - discriminate.
  - reflexivity.
  - reflexivity.
  - simpl. right. left. reflexivity.
  - apply located_below with (sub := [File "y.py"]).
    + simpl. right. left. reflexivity.
    + apply located_here. simpl. left. reflexivity.
  - intros s. now apply wildcard_literal.
Qed.

(** * Further properties of the code *)

(** ** Language identification *)

Lemma lower_char_period (c : ascii) :
  Ascii.eqb (lower_char c) "." = Ascii.eqb c ".".
Proof. destruct c as [[] [] [] [] [] [] [] []]; reflexivity. Qed.

Lemma lower_char_idempotent (c : ascii) :
  lower_char (lower_char c) = lower_char c.
Proof. destruct c as [[] [] [] [] [] [] [] []]; reflexivity. Qed.

Lemma lower_idempotent (s : string) : lower (lower s) = lower s.
Proof.
  induction s as [|c s IH]; simpl; [reflexivity|].
  now rewrite lower_char_idempotent, IH.
Qed.

(** Lower-casing moves no period, so it commutes with the split. *)
Lemma split_lower (s : string) :
  split "." (lower s) = map lower (split "." s).
Proof.
  induction s as [|c s IH]; simpl; [reflexivity|].
  rewrite lower_char_period, IH.
  destruct (Ascii.eqb c "."); [reflexivity|].
  now destruct (split "." s).
Qed.

Lemma last_item_map (f : string -> string) (xs : list string) :
  last_item (map f xs) = option_map f (last_item xs).
Proof.
  destruct xs as [|x xs]; [reflexivity|]. simpl. f_equal.
  induction xs as [|y xs IH]; [reflexivity|].
  cbn [map last]. destruct xs as [|z xs]; [reflexivity|]. exact IH.
Qed.

(** X1: the language of a file does not depend on the case of its name. *)
Theorem get_language_identifier_lower (filename : string) :
  get_language_identifier (lower filename) = get_language_identifier filename.
Proof.
  unfold get_language_identifier, extension_of.
  rewrite split_lower, last_item_map.
  destruct (last_item (split "." filename)); simpl; [|reflexivity].
  now rewrite lower_idempotent.
Qed.

(** X2: only what follows the last period counts: two filenames with the
    same period-free extension get the same language, the one the table
    gives for the lower-cased extension. *)
Theorem get_language_identifier_last_extension (stem1 stem2 ext : string) :
  contains "." ext = false ->
  get_language_identifier (stem1 +++ "." +++ ext)
  = get_language_identifier (stem2 +++ "." +++ ext)
  /\ get_language_identifier (stem1 +++ "." +++ ext)
     = dict_get language_map (lower ext) "".
Proof.
  intros H. now rewrite !(get_language_identifier_extension _ _ H).
Qed.

Lemma get_language_identifier_last_extension_witness :
  get_language_identifier ("notes.py" +++ "." +++ "TXT")
  = get_language_identifier ("a" +++ "." +++ "TXT")
  /\ get_language_identifier ("notes.py" +++ "." +++ "TXT")
     = dict_get language_map (lower "TXT") "".
Proof.
  apply (@get_language_identifier_last_extension "notes.py" "a" "TXT").
  reflexivity.
Defined.

(** ** The links of the table of contents *)

Lemma anchor_clean (file : string) :
  contains " " (anchor file) = false /\ contains "." (anchor file) = false.
Proof.
  induction file as [|c file [IH1 IH2]]; simpl; [auto|].
  destruct (Ascii.eqb c " ") eqn:Es; simpl.
  - now rewrite IH1, IH2.
  - destruct (Ascii.eqb c ".") eqn:Ep; simpl; [auto|].
    now rewrite Es, Ep, IH1, IH2.
Qed.

(** X3: the line [generate_toc] adds for a file links to [link_of] of
    that file, and a link never holds a space or a period. *)
Theorem link_has_no_space_no_period (toc file : string) :
  toc_step toc file = toc +++ toc_entry link_of file
  /\ contains " " (link_of file) = false
  /\ contains "." (link_of file) = false.
Proof.
  split; [reflexivity|].
  unfold link_of. rewrite replace_anchor. apply anchor_clean.
Qed.

Lemma anchor_replace_space (file : string) :
  anchor (replace " " "-" file) = anchor file.
Proof.
  induction file as [|c file IH]; simpl; [reflexivity|].
  destruct (Ascii.eqb c " ") eqn:Es; simpl.
  - now rewrite IH.
  - rewrite Es. now rewrite IH.
Qed.

Lemma anchor_replace_period (file : string) :
  anchor (replace "." "" file) = anchor file.
Proof.
  induction file as [|c file IH]; simpl; [reflexivity|].
  destruct (Ascii.eqb c ".") eqn:Ep; simpl.
  - apply Ascii.eqb_eq in Ep. subst c. simpl. exact IH.
  - now rewrite Ep, IH.
Qed.

(** X4: links collide: a filename, the same with hyphens for its spaces,
    and the same without its periods all get one link; taking the link of
    a link changes nothing. *)
Theorem link_collisions (file : string) :
  link_of (replace " " "-" file) = link_of file
  /\ link_of (replace "." "" file) = link_of file
  /\ link_of (link_of file) = link_of file.
Proof.
  unfold link_of. rewrite !replace_anchor.
  rewrite anchor_replace_space, anchor_replace_period.
  repeat split.
  pose proof (anchor_clean file) as [S P].
  induction (anchor file) as [|c a IH]; [reflexivity|].
  apply contains_false_cons in S, P. destruct S as [Es S], P as [Ep P].
  simpl. now rewrite Es, Ep, (IH S P).
Qed.

(** ** The patterns of the ignore file *)

Lemma rstrip_nonspace (c : ascii) (s : string) :
  is_space c = false -> rstrip (String c s) = String c (rstrip s).
Proof. intros H. cbn [rstrip]. rewrite H. now destruct (rstrip s). Qed.

Lemma rstrip_idempotent (s : string) : rstrip (rstrip s) = rstrip s.
Proof.
  induction s as [|c s IH]; [reflexivity|]. cbn [rstrip].
  destruct (rstrip s) as [|d r] eqn:E.
  - destruct (is_space c) eqn:Sc; [reflexivity|].
    cbn [rstrip]. now rewrite Sc.
  - cbn [rstrip] in IH |- *. cbn [rstrip]. now rewrite IH.
Qed.

Lemma lstrip_head (s : string) :
  lstrip s = "" \/ exists c r, lstrip s = String c r /\ is_space c = false.
Proof.
  induction s as [|c s IH]; [now left|]. cbn [lstrip].
  destruct (is_space c) eqn:Sc; [exact IH|]. right. eauto.
Qed.

(** Stripping twice is stripping once. *)
Lemma strip_idempotent (s : string) : strip (strip s) = strip s.
Proof.
  unfold strip. destruct (lstrip_head s) as [->|[c [r [-> Sc]]]];
    [reflexivity|].
  rewrite rstrip_nonspace by exact Sc. cbn [lstrip]. rewrite Sc.
  rewrite rstrip_nonspace by exact Sc. now rewrite rstrip_idempotent.
Qed.

Lemma rstrip_trailing_space (s : string) (c : ascii) :
  is_space c = true -> rstrip (s +++ String c "") = rstrip s.
Proof.
  intros Sc. induction s as [|d s IH]; cbn [append rstrip].
  - now rewrite Sc.
  - now rewrite IH.
Qed.

Lemma contains_lstrip (c : ascii) (s : string) :
  contains c s = false -> contains c (lstrip s) = false.
Proof.
  induction s as [|d s IH]; [reflexivity|]. intros H. cbn [lstrip].
  destruct (is_space d); [|exact H].
  apply contains_false_cons in H. now apply IH.
Qed.

Lemma contains_rstrip (c : ascii) (s : string) :
  contains c s = false -> contains c (rstrip s) = false.
Proof.
  induction s as [|d s IH]; [reflexivity|]. intros H.
  apply contains_false_cons in H. destruct H as [E H]. cbn [rstrip].
  specialize (IH H). destruct (rstrip s) as [|x r].
  - destruct (is_space d); [reflexivity|]. simpl. now rewrite E.
  - cbn [contains]. cbn [contains] in IH. now rewrite E, IH.
Qed.

Lemma lstrip_app (a b : string) :
  lstrip (a +++ b) = match lstrip a with
                     | EmptyString => lstrip b
                     | _ => lstrip a +++ b
                     end.
Proof.
  induction a as [|c a IH]; cbn [append lstrip].
  - now destruct (lstrip b).
  - destruct (is_space c); [exact IH | reflexivity].
Qed.

(** A line of a text holds no line end, except as its last character. *)
Lemma readlines_line (text line : string) :
  In line (readlines text) ->
  exists body,
    contains "010" body = false /\ (line = body \/ line = body +++ nl).
Proof.
  revert line. induction text as [|c text IH]; intros line; [intros []|].
  cbn [readlines]. destruct (Ascii.eqb c "010") eqn:E.
  - intros [<-|I]; [|now apply IH]. exists "". auto.
  - destruct (readlines text) as [|l ls].
    + intros [<-|[]]. exists (String c ""). simpl. rewrite E. auto.
    + intros [<-|I]; [|apply IH; now right].
      destruct (IH l (or_introl eq_refl)) as [body [C [-> | ->]]];
        exists (String c body); simpl; rewrite E, C; auto.
Qed.

Lemma strip_line_no_newline (line : string) (body : string) :
  contains "010" body = false ->
  line = body \/ line = body +++ nl ->
  contains "010" (strip line) = false.
Proof.
  intros C [-> | ->]; unfold strip.
  - now apply contains_rstrip, contains_lstrip.
  - rewrite lstrip_app.
    destruct (lstrip body) as [|x r] eqn:E; [reflexivity|].
    unfold nl. rewrite rstrip_trailing_space by reflexivity.
    apply contains_rstrip. rewrite <- E. now apply contains_lstrip.
Qed.

(** X5: every pattern [parse_gitignore] returns is a single stripped line:
    it is not empty, stripping it changes nothing, it does not begin with
    [#] and it holds no line end. *)
Theorem parse_gitignore_patterns_clean (w : world) (directory : string)
    (patterns : list string) (pattern : string) :
  parse_gitignore w directory = Return patterns ->
  In pattern patterns ->
  pattern <> ""
  /\ strip pattern = pattern
  /\ startswith pattern "#" = false
  /\ contains "010" pattern = false.
Proof.
  unfold parse_gitignore. intros P I.
  destruct (path_exists w _); [|inversion P; subst; destruct I].
  destruct (open_read w _) as [text|e|e]; try discriminate.
  inversion P. subst patterns. clear P.
  rewrite fold_gitignore_step in I. cbn [app] in I.
  apply in_map_iff in I. destruct I as [line [<- I]].
  apply filter_In in I. destruct I as [I K].
  unfold is_pattern_line in K. apply andb_true_iff in K.
  destruct K as [N H]. apply negb_true_iff in H.
  unfold nonempty_str in N. apply negb_true_iff, String.eqb_neq in N.
  split; [exact N|]. split; [apply strip_idempotent|]. split; [exact H|].
  destruct (readlines_line _ _ I) as [body [C L]].
  now apply strip_line_no_newline with (body := body).
Qed.

Lemma parse_gitignore_patterns_clean_witness :
  "*.log" <> ""
  /\ strip "*.log" = "*.log"
  /\ startswith "*.log" "#" = false
  /\ contains "010" "*.log" = false.
Proof.
  apply (@parse_gitignore_patterns_clean ignore_world "." ["*.log"; "build"]
           "*.log").
  - reflexivity.
  - simpl. left. reflexivity.
Defined.

(** ** More on collecting the files *)

Lemma walked_files_split (w : world) (directory : string)
    (entries : list node) :
  scandir w directory = inl entries ->
  walked_files w directory
  = map (fun n => posixpath.join directory (node_name n))
        (filter (fun c => negb (is_dir c)) entries)
    ++ files_of_walk (flat_map (walk_node directory) entries).
Proof.
  intros S. unfold walked_files, walk. rewrite S, files_of_walk_cons.
  now rewrite map_map.
Qed.

Lemma subseq_app_r (xs ys zs : list string) :
  subseq xs ys -> subseq xs (ys ++ zs).
Proof.
  induction 1 as [|x xs ys Sub IH|x xs ys Sub IH]; cbn [app].
  - induction zs; constructor; assumption.
  - now constructor.
  - now constructor.
Qed.

(** The regular files of a listing are among its non-directories, in the
    same order, and so are those of them a test keeps. *)
Lemma regular_among_nondirs (keep : string -> bool) (g : node -> string)
    (entries : list node) :
  subseq (filter keep (map g (filter is_file entries)))
         (filter keep (map g (filter (fun c => negb (is_dir c)) entries))).
Proof.
  induction entries as [|[name|name children|name] entries IH]; cbn.
  - constructor.
  - destruct (keep (g (File name))); [now constructor | exact IH].
  - exact IH.
  - destruct (keep (g (Special name))); [now constructor | exact IH].
Qed.

Lemma regular_are_nondirs (entries : list node) :
  forallb (fun n => is_file n || is_dir n) entries = true ->
  filter (fun c => negb (is_dir c)) entries = filter is_file entries.
Proof.
  induction entries as [|[name|name children|name] entries IH]; cbn;
    intros H; try discriminate; try (now rewrite IH); reflexivity.
Qed.

(** X6: what the non-recursive mode yields, the recursive mode yields too,
    in the same order; when the directory holds regular files and
    directories only, it is the beginning of what the recursive mode
    yields.  The recursive mode also tests the entries that are neither a
    regular file nor a directory, which [os.path.isfile] leaves out. *)
Theorem collect_files_recursive_extends (fnmatch : string -> string -> bool)
    (w : world) (directory : string)
    (ignore_patterns : option (list string)) (entries : list node) :
  directory <> "" ->
  scandir w directory = inl entries ->
  exists top all,
    collect_files fnmatch w directory false ignore_patterns = Return top
    /\ collect_files fnmatch w directory true ignore_patterns = Return all
    /\ subseq top all
    /\ (forallb (fun n => is_file n || is_dir n) entries = true ->
        exists deeper, all = top ++ deeper).
Proof.
  intros N S.
  assert (L1 : listed_files w directory false
               = Return (map (fun n => posixpath.join directory (node_name n))
                             (filter is_file entries))).
  { unfold listed_files. now rewrite S. }
  assert (L2 : listed_files w directory true
               = Return (walked_files w directory)) by reflexivity.
  rewrite (@collect_files_filter fnmatch w directory false ignore_patterns
             _ N L1).
  rewrite (@collect_files_filter fnmatch w directory true ignore_patterns
             _ N L2).
  rewrite (@walked_files_split w directory entries S), filter_app.
  do 2 eexists. split; [reflexivity|]. split; [reflexivity|]. split.
  - apply subseq_app_r, regular_among_nondirs.
  - intros R. rewrite (regular_are_nondirs _ R). eauto.
Qed.

Lemma collect_files_recursive_extends_witness :
  exists top all,
    collect_files wildcard_fnmatch link_world "." false (Some ["*.md"])
    = Return top
    /\ collect_files wildcard_fnmatch link_world "." true (Some ["*.md"])
       = Return all
    /\ subseq top all
    /\ (forallb (fun n => is_file n || is_dir n)
                [Special "gone.txt"; File "a.py"; Dir "sub" [File "b.py"]]
        = true ->
        exists deeper, all = top ++ deeper).
Proof.
  apply (@collect_files_recursive_extends wildcard_fnmatch link_world "."
           (Some ["*.md"])
           [Special "gone.txt"; File "a.py"; Dir "sub" [File "b.py"]]).
  - discriminate.
  - reflexivity.
Defined.

(** A dangling link listed before a regular file: the two modes differ on
    the files of the directory itself. *)
Example dangling_link_listed :
  collect_files wildcard_fnmatch link_world "." false None
  = Return ["./a.py"]
  /\ collect_files wildcard_fnmatch link_world "." true None
     = Return ["./gone.txt"; "./a.py"; "./sub/b.py"].
Proof. split; reflexivity. Qed.

Lemma matches_some_app (fnmatch : string -> string -> bool) (w : world)
    (directory : string) (ps qs : list string) (p : string) :
  matches_some fnmatch w directory (ps ++ qs) p
  = matches_some fnmatch w directory ps p
    || matches_some fnmatch w directory qs p.
Proof.
  unfold matches_some. destruct (posixpath.relpath _ _ _); [|reflexivity].
  apply existsb_app.
Qed.

(** X7: pattern lists add up: a file is yielded under the patterns of two
    lists put together exactly when it is yielded under each list. *)
Theorem collect_files_patterns_add_up (fnmatch : string -> string -> bool)
    (w : world) (directory : string) (recursive : bool)
    (ps qs : list string) (cands : list string) :
  directory <> "" ->
  listed_files w directory recursive = Return cands ->
  exists under_ps under_qs under_both,
    collect_files fnmatch w directory recursive (Some ps) = Return under_ps
    /\ collect_files fnmatch w directory recursive (Some qs) = Return under_qs
    /\ collect_files fnmatch w directory recursive (Some (ps ++ qs))
       = Return under_both
    /\ forall p, In p under_both <-> In p under_ps /\ In p under_qs.
Proof.
  intros N L.
  rewrite !(@collect_files_filter fnmatch w directory recursive _ _ N L).
  do 3 eexists. split; [reflexivity|]. split; [reflexivity|].
  split; [reflexivity|].
  intros p. rewrite !filter_In. cbn [excluded].
  rewrite matches_some_app, negb_orb, andb_true_iff. tauto.
Qed.

Lemma collect_files_patterns_add_up_witness :
  exists under_ps under_qs under_both,
    collect_files wildcard_fnmatch test_world test_dir false (Some ["*.log"])
    = Return under_ps
    /\ collect_files wildcard_fnmatch test_world test_dir false (Some ["*.js"])
       = Return under_qs
    /\ collect_files wildcard_fnmatch test_world test_dir false
         (Some (["*.log"] ++ ["*.js"]))
       = Return under_both
    /\ forall p, In p under_both <-> In p under_ps /\ In p under_qs.
Proof.
  apply (@collect_files_patterns_add_up wildcard_fnmatch test_world test_dir
           false ["*.log"] ["*.js"]
           ["/tmp/t/test1.py"; "/tmp/t/test2.js"; "/tmp/t/.gitignore";
            "/tmp/t/ignored.log"]).
  - discriminate.
  - reflexivity.
Defined.

Lemma filter_paths_map (A : Type) (test : string -> outcome bool)
    (g : A -> string) (f : A -> bool) (l : list A) :
  (forall x, In x l -> test (g x) = Return (f x)) ->
  filter_paths test (map g l) = Return (map g (filter f l)).
Proof.
  induction l as [|x l IH]; intros H; simpl; [reflexivity|].
  rewrite (H x (or_introl eq_refl)), IH by (intros y I; apply H; now right).
  now destruct (f x).
Qed.

(** X8: in a flat listing a pattern decides on the name alone: the
    non-recursive mode yields, in listing order, the regular files of the
    directory whose name no pattern matches, however the directory is
    spelled and wherever the program runs. *)
Theorem collect_files_flat (fnmatch : string -> string -> bool) (w : world)
    (directory : string) (patterns : list string) (entries : list node) :
  posixpath.isabs (getcwd w) = true ->
  directory <> "" ->
  scandir w directory = inl entries ->
  forallb plain_tree entries = true ->
  collect_files fnmatch w directory false (Some patterns)
  = Return (map (fun n => posixpath.join directory (node_name n))
                (filter (fun n => is_file n
                                  && negb (existsb (fnmatch (node_name n))
                                                   patterns))
                        entries)).
Proof.
  intros A N S W. unfold collect_files. rewrite S.
  rewrite filter_paths_map
    with (f := fun n => negb (existsb (fnmatch (node_name n)) patterns)).
  - f_equal. f_equal. clear. induction entries as [|n l IH]; [reflexivity|].
    simpl. destruct (is_file n); simpl; [|exact IH].
    destruct (negb _); simpl; now rewrite IH.
  - intros n I. apply filter_In in I. destruct I as [I F].
    destruct n as [name|? ?|?]; try discriminate. cbn [node_name].
    change (posixpath.join directory name) with (path_of directory [] name).
    rewrite (@is_ignored_located fnmatch w directory entries A N W patterns
               [] name (located_here _ _ I)).
    f_equal. f_equal. clear. induction patterns as [|p ps IH]; [reflexivity|].
    cbn [existsb app PyStr.join] in *. rewrite IH.
    now destruct (fnmatch name p).
Qed.

Lemma collect_files_flat_witness :
  collect_files wildcard_fnmatch build_world "." false (Some ["*.py"])
  = Return (map (fun n => posixpath.join "." (node_name n))
                (filter (fun n => is_file n
                                  && negb (existsb
                                             (wildcard_fnmatch (node_name n))
                                             ["*.py"]))
                        build_tree)).
Proof.
  apply (@collect_files_flat wildcard_fnmatch build_world "." ["*.py"]
           build_tree); reflexivity || discriminate.
Defined.

(** ** The selection *)

(** Asking changes neither the log nor the output file. *)
Lemma get_user_confirmation_frame (filename : string) (st st' : state)
    (r : outcome bool) :
  get_user_confirmation filename st = (r, st') ->
  log st' = log st /\ outfile st' = outfile st.
Proof.
  unfold get_user_confirmation.
  destruct (confirmation_loop filename (stdin st) (stdout st)) as [[r' i] o].
  intros E. inversion E. auto.
Qed.

Lemma subseq_refl (xs : list string) : subseq xs xs.
Proof. induction xs; constructor; assumption. Qed.

Lemma subseq_length (xs ys : list string) :
  subseq xs ys -> length xs <= length ys.
Proof. induction 1; simpl; lia. Qed.

(** What the selection loop keeps is taken from the candidates, in their
    order, and it leaves the log and the output file alone. *)
Lemma select_files_frame (include_all : bool) (files : list string) :
  forall (acc : list string) (st st' : state) (r : outcome (list string)),
    select_files include_all files acc st = (r, st') ->
    log st' = log st /\ outfile st' = outfile st
    /\ forall fti, r = Return fti ->
         exists sel, fti = acc ++ sel /\ subseq sel files.
Proof.
  induction files as [|f files IH]; intros acc st st' r; cbn [select_files].
  - intros E. inversion E. subst. repeat split.
    intros fti F. inversion F. exists []. rewrite app_nil_r.
    split; [reflexivity | constructor].
  - unfold bind at 1.
    destruct ((if include_all then ret true else get_user_confirmation f) st)
      as [[accept|e] st1] eqn:A.
    + assert (Fr : log st1 = log st /\ outfile st1 = outfile st).
      { destruct include_all.
        - inversion A. auto.
        - now apply get_user_confirmation_frame in A. }
      intros E. destruct (IH _ _ _ _ E) as [L [O S]].
      destruct Fr as [L1 O1]. rewrite L, O, L1, O1. repeat split.
      intros fti F. destruct (S fti F) as [sel [-> Sub]].
      destruct accept.
      * exists (f :: sel). rewrite <- app_assoc. split; [reflexivity|].
        now constructor.
      * exists sel. split; [reflexivity | now constructor].
    + assert (Fr : log st1 = log st /\ outfile st1 = outfile st).
      { destruct include_all.
        - inversion A.
        - now apply get_user_confirmation_frame in A. }
      intros E. inversion E. subst. destruct Fr as [L1 O1].
      repeat split; try assumption. discriminate.
Qed.

(** X11: the selection never invents, repeats or reorders: the files it
    returns are candidates, in the order of the candidates, so there are at
    most as many; it writes no log record and does not touch the output
    file. *)
Theorem select_files_subseq (include_all : bool) (files fti : list string)
    (st st' : state) :
  select_files include_all files [] st = (Return fti, st') ->
  subseq fti files
  /\ length fti <= length files
  /\ log st' = log st
  /\ outfile st' = outfile st.
Proof.
  intros E. destruct (select_files_frame _ _ _ _ E) as [L [O S]].
  destruct (S fti eq_refl) as [sel [-> Sub]]. cbn [app].
  repeat split; try assumption. now apply subseq_length.
Qed.

Lemma select_files_subseq_witness :
  subseq ["a.py"; "c.py"] ["a.py"; "b.py"; "c.py"]
  /\ length ["a.py"; "c.py"] <= length ["a.py"; "b.py"; "c.py"]
  /\ log {| stdin := ["later"];
            stdout := prompts ["a.py"] ++ [invalid_input_message]
                      ++ prompts ["a.py"; "b.py"; "c.py"];
            log := []; outfile := None |}
     = log (initial_state ["what"; "y"; "N"; "yes"; "later"])
  /\ outfile {| stdin := ["later"];
                stdout := prompts ["a.py"] ++ [invalid_input_message]
                          ++ prompts ["a.py"; "b.py"; "c.py"];
                log := []; outfile := None |}
     = outfile (initial_state ["what"; "y"; "N"; "yes"; "later"]).
Proof.
  apply (@select_files_subseq false ["a.py"; "b.py"; "c.py"]
           ["a.py"; "c.py"] (initial_state ["what"; "y"; "N"; "yes"; "later"])).
  reflexivity.
Defined.

(** X12: with one valid answer per candidate the selection keeps the
    files answered with yes, reads exactly these answers and prints one
    prompt per file. *)
Theorem select_files_answers (files : list string) (lines : list string)
    (answers : list bool) (rest : list string) (st : state) :
  stdin st = lines ++ rest ->
  map answer_of lines = map Some answers ->
  length answers = length files ->
  select_files false files [] st
  = (Return (chosen files answers),
     {| stdin := rest; stdout := stdout st ++ prompts files;
        log := log st; outfile := outfile st |}).
Proof.
  intros I A L.
  assert (G : forall files lines answers acc st,
            stdin st = lines ++ rest ->
            map answer_of lines = map Some answers ->
            length answers = length files ->
            select_files false files acc st
            = (Return (acc ++ chosen files answers),
               {| stdin := rest; stdout := stdout st ++ prompts files;
                  log := log st; outfile := outfile st |})).
  { clear. induction files as [|f files IH];
      intros lines answers acc st I A L.
    - destruct answers; [|discriminate]. destruct lines; [|discriminate].
      cbn in *. unfold ret. rewrite !app_nil_r. subst rest. now destruct st.
    - destruct answers as [|a answers]; [discriminate|].
      destruct lines as [|line lines]; [discriminate|].
      cbn [map] in A. inversion A as [[A1 A2]]. cbn [length] in L.
      cbn [select_files]. unfold bind at 1.
      unfold get_user_confirmation. rewrite I. cbn [app].
      rewrite confirmation_loop_round, A1.
      erewrite IH; [|reflexivity|exact A2|lia].
      cbn [stdout log outfile chosen prompts map].
      destruct a; rewrite <- !app_assoc; reflexivity. }
  now rewrite (G files lines answers [] st I A L).
Qed.

Lemma select_files_answers_witness :
  select_files false ["a.py"; "b.py"] [] (initial_state ["No"; " y"; "x"])
  = (Return (chosen ["a.py"; "b.py"] [false; true]),
     {| stdin := ["x"];
        stdout := stdout (initial_state ["No"; " y"; "x"])
                  ++ prompts ["a.py"; "b.py"];
        log := log (initial_state ["No"; " y"; "x"]);
        outfile := outfile (initial_state ["No"; " y"; "x"]) |}).
Proof.
  apply (@select_files_answers ["a.py"; "b.py"] ["No"; " y"] [false; true]
           ["x"] (initial_state ["No"; " y"; "x"])); reflexivity.
Defined.

(** ** Runs that fail, runs that find nothing *)

(** X9: a directory that cannot be listed is fatal in non-recursive mode
    only: there the run raises the [OSError] and opens no output file, while
    in recursive mode it returns, writes a document with the metadata and an
    empty table of contents, and reports 0 out of 0 files. *)
Theorem unlistable_directory (fnmatch : string -> string -> bool) (w : world)
    (output_file directory e : string) (include_all : bool) (st : state) :
  scandir w directory = inr e ->
  open_write w output_file = None ->
  combine_files_to_markdown fnmatch w output_file include_all directory
    false true st
  = (Raise (OSError e),
     {| stdin := stdin st; stdout := stdout st;
        log := log st ++ [(ERROR, "An error occurred while combining files: "
                                  +++ e)];
        outfile := outfile st |})
  /\ combine_files_to_markdown fnmatch w output_file include_all directory
       true true st
     = (Return tt,
        {| stdin := stdin st; stdout := stdout st;
           log := log st ++ [(INFO, summary 0 0 output_file)];
           outfile := Some (metadata_writes (now w) ++ [generate_toc []]) |}).
Proof.
  intros S W. split.
  - apply run_without_candidates.
    unfold candidate_files, collect_files. now rewrite S.
  - assert (C : candidate_files fnmatch w output_file directory true true
                = Return []).
    { unfold candidate_files, collect_files, walked_files, walk.
      now rewrite S. }
    rewrite run_after_selection with (1 := C) (3 := W) (fti := []) (st1 := st)
      by reflexivity.
    reflexivity.
Qed.

Lemma unlistable_directory_witness :
  combine_files_to_markdown wildcard_fnmatch test_world "out.md" false
    "/nowhere" false true (initial_state [])
  = (Raise (OSError "No such file or directory"),
     {| stdin := []; stdout := [];
        log := [] ++ [(ERROR, "An error occurred while combining files: "
                              +++ "No such file or directory")];
        outfile := None |})
  /\ combine_files_to_markdown wildcard_fnmatch test_world "out.md" false
       "/nowhere" true true (initial_state [])
     = (Return tt,
        {| stdin := []; stdout := [];
           log := [] ++ [(INFO, summary 0 0 "out.md")];
           outfile := Some (metadata_writes (now test_world)
                            ++ [generate_toc []]) |}).
Proof.
  apply (@unlistable_directory wildcard_fnmatch test_world "out.md" "/nowhere"
           "No such file or directory" false (initial_state []));
    reflexivity.
Defined.

(** Without patterns [collect_files] yields the whole listing. *)
Lemma collect_files_unfiltered (fnmatch : string -> string -> bool)
    (w : world) (directory : string) (recursive : bool)
    (cands : list string) :
  listed_files w directory recursive = Return cands ->
  collect_files fnmatch w directory recursive None = Return cands.
Proof.
  assert (F : forall l, filter_paths (fun _ => Return true) l = Return l).
  { induction l as [|p l IH]; simpl; [reflexivity | now rewrite IH]. }
  unfold listed_files, collect_files. cbn [is_ignored negb].
  destruct recursive.
  - intros L. inversion L. apply F.
  - destruct (scandir w directory); [|discriminate].
    intros L. inversion L. apply F.
Qed.

(** X10: an ignore file that exists and cannot be read is fatal: the run
    raises the [OSError], asks nothing and opens no output file.  With
    [ignore_gitignore] the same world gives the candidates of the plain
    listing: the ignore file is not read. *)
Theorem unreadable_gitignore (fnmatch : string -> string -> bool) (w : world)
    (output_file directory e : string) (include_all recursive : bool)
    (cands : list string) (st : state) :
  path_exists w (posixpath.join directory ".gitignore") = true ->
  open_read w (posixpath.join directory ".gitignore") = ReadIOError e ->
  listed_files w directory recursive = Return cands ->
  combine_files_to_markdown fnmatch w output_file include_all directory
    recursive false st
  = (Raise (OSError e),
     {| stdin := stdin st; stdout := stdout st;
        log := log st ++ [(ERROR, "An error occurred while combining files: "
                                  +++ e)];
        outfile := outfile st |})
  /\ candidate_files fnmatch w output_file directory recursive true
     = Return (filter (not_self w output_file) cands).
Proof.
  intros X R L. split.
  - apply run_without_candidates.
    unfold candidate_files, parse_gitignore. now rewrite X, R.
  - unfold candidate_files.
    now rewrite (@collect_files_unfiltered fnmatch w directory recursive cands L).
Qed.

Lemma unreadable_gitignore_witness :
  combine_files_to_markdown wildcard_fnmatch sealed_world "out.md" true "."
    false false (initial_state [])
  = (Raise (OSError "Permission denied"),
     {| stdin := stdin (initial_state []); stdout := stdout (initial_state []);
        log := log (initial_state [])
               ++ [(ERROR, "An error occurred while combining files: "
                           +++ "Permission denied")];
        outfile := outfile (initial_state []) |})
  /\ candidate_files wildcard_fnmatch sealed_world "out.md" "." false true
     = Return (filter (not_self sealed_world "out.md")
                      ["./.gitignore"; "./a.py"]).
Proof.
  apply (@unreadable_gitignore wildcard_fnmatch sealed_world "out.md" "."
           "Permission denied" true false ["./.gitignore"; "./a.py"]
           (initial_state [])); reflexivity.
Defined.

(** X13: without a valid answer [get_user_confirmation] rejects every line
    the terminal holds, prompts once more and raises [EOFError]; on an empty
    terminal it raises after the first prompt. *)
Theorem get_user_confirmation_eof (filename : string) (st : state) :
  Forall (fun line => answer_of line = None) (stdin st) ->
  get_user_confirmation filename st
  = (Raise EOFError,
     {| stdin := [];
        stdout := stdout st ++ rejected filename (stdin st)
                  ++ [confirmation_prompt filename];
        log := log st; outfile := outfile st |}).
Proof.
  intros F. unfold get_user_confirmation.
  now rewrite confirmation_loop_eof by exact F.
Qed.

Lemma get_user_confirmation_eof_witness :
  get_user_confirmation "a.py" (initial_state ["maybe"; ""])
  = (Raise EOFError,
     {| stdin := [];
        stdout := stdout (initial_state ["maybe"; ""])
                  ++ rejected "a.py" (stdin (initial_state ["maybe"; ""]))
                  ++ [confirmation_prompt "a.py"];
        log := log (initial_state ["maybe"; ""]);
        outfile := outfile (initial_state ["maybe"; ""]) |}).
Proof.
  apply (@get_user_confirmation_eof "a.py" (initial_state ["maybe"; ""])).
  repeat constructor.
Defined.

(** X14: when the selection is interrupted by an exception, the run logs
    it and raises it again without opening the output file: no document,
    not even an empty one, is written. *)
Theorem interrupted_selection (fnmatch : string -> string -> bool) (w : world)
    (output_file directory : string)
    (include_all recursive ignore_gitignore : bool)
    (files : list string) (e : exn) (st st1 : state) :
  candidate_files fnmatch w output_file directory recursive ignore_gitignore
  = Return files ->
  select_files include_all files [] st = (Raise e, st1) ->
  combine_files_to_markdown fnmatch w output_file include_all directory
    recursive ignore_gitignore st
  = (Raise e,
     {| stdin := stdin st1; stdout := stdout st1;
        log := log st ++ [(ERROR, "An error occurred while combining files: "
                                  +++ exn_str e)];
        outfile := outfile st |}).
Proof.
  intros C S. destruct (select_files_frame _ _ _ _ S) as [L [O _]].
  unfold combine_files_to_markdown, try_except, bind, lift.
  rewrite C, S. unfold logging, raise. cbn. now rewrite L, O.
Qed.

Lemma interrupted_selection_witness :
  combine_files_to_markdown wildcard_fnmatch locked_world "out.md" false "."
    false true (initial_state ["y"; "perhaps"])
  = (Raise EOFError,
     {| stdin := [];
        stdout := [confirmation_prompt "./a.py"; confirmation_prompt "./b.py";
                   invalid_input_message; confirmation_prompt "./b.py"];
        log := log (initial_state ["y"; "perhaps"])
               ++ [(ERROR, "An error occurred while combining files: "
                           +++ exn_str EOFError)];
        outfile := outfile (initial_state ["y"; "perhaps"]) |}).
Proof.
  apply (@interrupted_selection wildcard_fnmatch locked_world "out.md" "."
           false false true ["./a.py"; "./b.py"] EOFError
           (initial_state ["y"; "perhaps"])
           {| stdin := [];
              stdout := [confirmation_prompt "./a.py";
                         confirmation_prompt "./b.py";
                         invalid_input_message; confirmation_prompt "./b.py"];
              log := []; outfile := None |}); reflexivity.
Defined.

(** X15: in batch mode the run neither reads from the terminal nor prints
    to it, however it ends. *)
Theorem batch_leaves_terminal (fnmatch : string -> string -> bool) (w : world)
    (output_file directory : string) (recursive ignore_gitignore : bool)
    (st : state) :
  let result :=
    combine_files_to_markdown fnmatch w output_file true directory recursive
      ignore_gitignore st in
  stdin (snd result) = stdin st /\ stdout (snd result) = stdout st.
Proof.
  intros result. subst result.
  destruct (candidate_files fnmatch w output_file directory recursive
              ignore_gitignore) as [files|e] eqn:C.
  - destruct (open_write w output_file) as [err|] eqn:W.
    + rewrite run_without_output
        with (1 := C) (2 := select_files_batch files [] st) (3 := W).
      auto.
    + rewrite run_after_selection
        with (1 := C) (2 := select_files_batch files [] st) (3 := W).
      auto.
  - rewrite run_without_candidates with (1 := C). auto.
Qed.

(** X16: the output file is opened after the selection only: when it
    cannot be opened the run raises the [OSError] with the questions
    already asked, no file read and nothing written. *)
Theorem output_not_writable (fnmatch : string -> string -> bool) (w : world)
    (output_file directory : string)
    (include_all recursive ignore_gitignore : bool)
    (files fti : list string) (e : string) (st st1 : state) :
  candidate_files fnmatch w output_file directory recursive ignore_gitignore
  = Return files ->
  select_files include_all files [] st = (Return fti, st1) ->
  open_write w output_file = Some e ->
  combine_files_to_markdown fnmatch w output_file include_all directory
    recursive ignore_gitignore st
  = (Raise (OSError e),
     {| stdin := stdin st1; stdout := stdout st1;
        log := log st ++ [(ERROR, "An error occurred while combining files: "
                                  +++ e)];
        outfile := outfile st |}).
Proof.
  intros C S W. destruct (select_files_frame _ _ _ _ S) as [L [O _]].
  rewrite run_without_output with (1 := C) (2 := S) (3 := W).
  now rewrite L, O.
Qed.

Lemma output_not_writable_witness :
  combine_files_to_markdown wildcard_fnmatch readonly_world "out.md" false "."
    false true (initial_state ["y"; "n"; "left"])
  = (Raise (OSError "Read-only file system"),
     {| stdin := ["left"];
        stdout := prompts ["./a.py"; "./b.py"];
        log := log (initial_state ["y"; "n"; "left"])
               ++ [(ERROR, "An error occurred while combining files: "
                           +++ "Read-only file system")];
        outfile := outfile (initial_state ["y"; "n"; "left"]) |}).
Proof.
  apply (@output_not_writable wildcard_fnmatch readonly_world "out.md" "."
           false false true ["./a.py"; "./b.py"] ["./a.py"]
           "Read-only file system" (initial_state ["y"; "n"; "left"])
           {| stdin := ["left"]; stdout := prompts ["./a.py"; "./b.py"];
              log := []; outfile := None |}); reflexivity.
Defined.

(** ** Files that do not decode, files that all read *)

Lemma sections_until_decode_error (w : world) (before after : list string)
    (f e : string) :
  Forall (fun g => forall e', open_read w g <> ReadDecodeError e') before ->
  open_read w f = ReadDecodeError e ->
  sections_outcome w (before ++ f :: after) = Raise (UnicodeDecodeError e)
  /\ sections_log w (before ++ f :: after) = sections_log w before
  /\ flat_map (section_of w) (combined_files w (before ++ f :: after))
     = flat_map (section_of w) before.
Proof.
  intros F R. induction F as [|g before G F IH]; cbn.
  - now rewrite R.
  - destruct IH as [IH1 [IH2 IH3]]. unfold section_of at 2.
    destruct (open_read w g) as [text|e'|e'] eqn:Rg.
    + cbn. unfold section_of at 1. rewrite Rg, IH1, IH2, IH3. auto.
    + rewrite IH1, IH2, IH3. auto.
    + now destruct (G e').
Qed.

(** X17: a selected file whose reading fails outside [IOError] (a binary
    file that does not decode) stops the run: the exception is raised, the
    document keeps the table of contents of the whole selection and the
    sections of the readable files before that file, and the log ends with
    the error instead of the summary. *)
Theorem decode_error_stops_run (fnmatch : string -> string -> bool)
    (w : world) (output_file directory : string)
    (include_all recursive ignore_gitignore : bool)
    (files before after : list string) (f e : string) (st st1 : state) :
  candidate_files fnmatch w output_file directory recursive ignore_gitignore
  = Return files ->
  select_files include_all files [] st = (Return (before ++ f :: after), st1) ->
  open_write w output_file = None ->
  Forall (fun g => forall e', open_read w g <> ReadDecodeError e') before ->
  open_read w f = ReadDecodeError e ->
  combine_files_to_markdown fnmatch w output_file include_all directory
    recursive ignore_gitignore st
  = (Raise (UnicodeDecodeError e),
     {| stdin := stdin st1; stdout := stdout st1;
        log := log st ++ sections_log w before
               ++ [(ERROR, "An error occurred while combining files: " +++ e)];
        outfile :=
          Some (metadata_writes (now w)
                ++ generate_toc (before ++ f :: after)
                   :: flat_map (section_of w) before) |}).
Proof.
  intros C S W F R. destruct (select_files_frame _ _ _ _ S) as [L [O _]].
  destruct (@sections_until_decode_error w before after f e F R)
    as [E1 [E2 E3]].
  rewrite run_after_selection with (1 := C) (2 := S) (3 := W).
  now rewrite E1, E2, E3, L.
Qed.

Lemma decode_error_stops_run_witness :
  combine_files_to_markdown wildcard_fnmatch binary_world "out.md" true "."
    false true (initial_state [])
  = (Raise (UnicodeDecodeError "'utf-8' codec can't decode byte 0x89"),
     {| stdin := stdin (initial_state []); stdout := stdout (initial_state []);
        log := log (initial_state []) ++ sections_log binary_world ["./a.py"]
               ++ [(ERROR, "An error occurred while combining files: "
                           +++ "'utf-8' codec can't decode byte 0x89")];
        outfile :=
          Some (metadata_writes (now binary_world)
                ++ generate_toc (["./a.py"] ++ "./logo.png" :: ["./z.py"])
                   :: flat_map (section_of binary_world) ["./a.py"]) |}).
Proof.
  apply (@decode_error_stops_run wildcard_fnmatch binary_world "out.md" "."
           true false true ["./a.py"; "./logo.png"; "./z.py"] ["./a.py"]
           ["./z.py"] "./logo.png" "'utf-8' codec can't decode byte 0x89"
           (initial_state []) (initial_state [])); try reflexivity.
  constructor; [|constructor]. intros e'. discriminate.
Defined.

Lemma sections_all_readable (w : world) (files : list string) :
  Forall (fun g => exists text, open_read w g = ReadOk text) files ->
  sections_outcome w files = Return tt
  /\ sections_log w files = []
  /\ combined_files w files = files.
Proof.
  induction 1 as [|g files [text R] F [IH1 [IH2 IH3]]]; cbn; [auto|].
  now rewrite R, IH1, IH2, IH3.
Qed.

(** X18: when every selected file can be read the run returns, the
    document holds the metadata, the table of contents and one section per
    selected file in the order of the selection, nothing but the summary is
    logged, and the summary counts the sections written. *)
Theorem all_files_readable (fnmatch : string -> string -> bool) (w : world)
    (output_file directory : string)
    (include_all recursive ignore_gitignore : bool)
    (files fti : list string) (st st1 : state) :
  candidate_files fnmatch w output_file directory recursive ignore_gitignore
  = Return files ->
  select_files include_all files [] st = (Return fti, st1) ->
  open_write w output_file = None ->
  Forall (fun g => exists text, open_read w g = ReadOk text) fti ->
  combine_files_to_markdown fnmatch w output_file include_all directory
    recursive ignore_gitignore st
  = (Return tt,
     {| stdin := stdin st1; stdout := stdout st1;
        log := log st ++ [(INFO, summary (length (combined_files w fti))
                                   (length files) output_file)];
        outfile :=
          Some (metadata_writes (now w)
                ++ generate_toc fti :: flat_map (section_of w) fti) |}).
Proof.
  intros C S W F. destruct (select_files_frame _ _ _ _ S) as [L [O _]].
  destruct (@sections_all_readable w fti F) as [E1 [E2 E3]].
  rewrite run_after_selection with (1 := C) (2 := S) (3 := W).
  now rewrite E1, E2, E3, L.
Qed.

Lemma all_files_readable_witness :
  combine_files_to_markdown wildcard_fnmatch test_world "out.md" true test_dir
    false false (initial_state [])
  = (Return tt,
     {| stdin := stdin (initial_state []); stdout := stdout (initial_state []);
        log := log (initial_state [])
               ++ [(INFO, summary
                            (length (combined_files test_world
                                       ["/tmp/t/test1.py"; "/tmp/t/test2.js";
                                        "/tmp/t/.gitignore"]))
                            (length ["/tmp/t/test1.py"; "/tmp/t/test2.js";
                                     "/tmp/t/.gitignore"]) "out.md")];
        outfile :=
          Some (metadata_writes (now test_world)
                ++ generate_toc ["/tmp/t/test1.py"; "/tmp/t/test2.js";
                                 "/tmp/t/.gitignore"]
                   :: flat_map (section_of test_world)
                        ["/tmp/t/test1.py"; "/tmp/t/test2.js";
                         "/tmp/t/.gitignore"]) |}).
Proof.
  apply (@all_files_readable wildcard_fnmatch test_world "out.md" test_dir
           true false false
           ["/tmp/t/test1.py"; "/tmp/t/test2.js"; "/tmp/t/.gitignore"]
           ["/tmp/t/test1.py"; "/tmp/t/test2.js"; "/tmp/t/.gitignore"]
           (initial_state []) (initial_state [])); try reflexivity.
  repeat constructor; eexists; reflexivity.
Defined.

(** ** The entry point *)

(** X19: how the entry point ends a run of [combine_files_to_markdown]
    that returns or raises an exception of class [Exception]: when the run
    returns, the status is 0, nothing more is logged and the last log
    record is the summary; when it raises, the status is 1 and the error is
    logged twice with the same message, once by [combine_files_to_markdown]
    and once by the entry point. *)
Theorem script_entry_status (fnmatch : string -> string -> bool) (w : world)
    (args : namespace) (st : state) :
  let run :=
    combine_files_to_markdown fnmatch w (arg_output args) (arg_all args)
      (arg_directory args) (arg_recursive args) (arg_ignore_gitignore args)
      st in
  let result := script_entry fnmatch w args st in
  (fst run = Return tt
   /\ result = (Return 0, snd run)
   /\ exists n m older,
        log (snd run) = older ++ [(INFO, summary n m (arg_output args))])
  \/ (exists e older,
        fst run = Raise e
        /\ fst result = Return 1
        /\ log (snd run)
           = older ++ [(ERROR, "An error occurred while combining files: "
                               +++ exn_str e)]
        /\ log (snd result)
           = log (snd run) ++ [(ERROR, "An error occurred: " +++ exn_str e)]
        /\ stdin (snd result) = stdin (snd run)
        /\ stdout (snd result) = stdout (snd run)
        /\ outfile (snd result) = outfile (snd run)).
Proof.
  intros run result. subst run result.
  unfold script_entry, combine_files_to_markdown, try_except, bind, lift.
  destruct (candidate_files fnmatch w (arg_output args) (arg_directory args)
              (arg_recursive args) (arg_ignore_gitignore args)) as [files|e].
  - destruct (select_files (arg_all args) files [] st) as [[fti|e] st1].
    + destruct (write_document w (arg_output args) fti st1) as [[[]|e] st2].
      * left. cbn. repeat split. eauto.
      * right. exists e, (log st2). cbn. repeat split.
    + right. exists e, (log st1). cbn. repeat split.
  - right. exists e, (log st). cbn. repeat split.
Qed.

(** ** The unit tests *)

(** X20: on the directory [setUp] prepares, wherever it is,
    [test_parse_gitignore] and [test_get_language_identifier] pass and
    [test_collect_files] fails: [collect_files] is called without patterns,
    reads no ignore file, and yields [ignored.log] with the rest. *)
Theorem unit_tests (fnmatch : string -> string -> bool) (w : world)
    (test_dir : string) :
  fixture w test_dir ->
  test_parse_gitignore w test_dir
  /\ test_get_language_identifier
  /\ ~ test_collect_files fnmatch w test_dir.
Proof.
  intros [[entries [S E]] [X R]]. split; [|split].
  - unfold test_parse_gitignore, parse_gitignore. now rewrite X, R.
  - repeat split.
  - intros [files [C [_ [_ N]]]]. apply N. clear N.
    rewrite collect_files_unfiltered
      with (cands := map (fun n => posixpath.join test_dir (node_name n))
                         (filter is_file entries)) in C
      by (unfold listed_files; now rewrite S).
    inversion C. subst files.
    change (posixpath.join test_dir "ignored.log")
      with ((fun n => posixpath.join test_dir (node_name n))
              (File "ignored.log")).
    apply in_map, filter_In. split; [|reflexivity].
    apply E. simpl. auto.
Qed.

Lemma unit_tests_witness :
  test_parse_gitignore test_world test_dir
  /\ test_get_language_identifier
  /\ ~ test_collect_files wildcard_fnmatch test_world test_dir.
Proof.
  apply (@unit_tests wildcard_fnmatch test_world test_dir).
  split; [|split; reflexivity].
  exists [File "test1.py"; File "test2.js"; File ".gitignore";
          File "ignored.log"].
  split; [reflexivity | tauto].
Defined.
